(** * The testing application service of hack-vacancy-service

    A shallow embedding of [src/services/testing.py]: the attempt lifecycle
    (start / complete of practical and theoretical testings), the attempt
    listings and the testing getters.

    The service methods are coroutines that await repository calls and read
    the wall clock.  They are embedded as programs over a signature of awaited
    calls ([Call], with the type of the awaited answer given by [Resp]); a
    program is run against a store of tables by [run], which also records the
    sequence of calls that were awaited. *)

From Stdlib Require Import ZArith NArith List Bool String Lia Permutation.
Import ListNotations.

Local Open Scope Z_scope.

(** ** Values *)

(** [uuid.UUID]: a 128-bit identifier. *)
Definition UUID : Set := N.

(** [datetime]: microseconds elapsed since 0001-01-01T00:00:00, the least
    value of Python's [datetime].  The greatest representable day is ordinal
    3652059 (9999-12-31). *)
Definition datetime : Set := Z.

Definition us_per_day : Z := 86400000000.
Definition MAXORDINAL : Z := 3652059.
Definition datetime_in_range (t : Z) : bool :=
  (0 <=? t) && (t <? MAXORDINAL * us_per_day).

(** src/models/permission.py *)
Inductive Permission : Set :=
| GET_PUBLIC_VACANCY
| GET_TESTING
| START_TESTING
| COMPLETE_TESTING
| GET_SELF_TEST_RESULTS
| GET_PRIVATE_VACANCY
| CREATE_VACANCY
| UPDATE_VACANCY
| DELETE_VACANCY
| CREATE_TESTING
| UPDATE_TESTING
| DELETE_TESTING
| GET_USER_TEST_RESULTS.

Definition Permission_value (p : Permission) : string :=
  match p with
  | GET_PUBLIC_VACANCY => "GET_PUBLIC_VACANCY"
  | GET_TESTING => "GET_TESTING"
  | START_TESTING => "START_TESTING"
  | COMPLETE_TESTING => "COMPLETE_TESTING"
  | GET_SELF_TEST_RESULTS => "GET_TEST_RESULTS"
  | GET_PRIVATE_VACANCY => "GET_PRIVATE_VACANCY"
  | CREATE_VACANCY => "CREATE_VACANCY"
  | UPDATE_VACANCY => "UPDATE_VACANCY"
  | DELETE_VACANCY => "DELETE_VACANCY"
  | CREATE_TESTING => "CREATE_TESTING"
  | UPDATE_TESTING => "UPDATE_TESTING"
  | DELETE_TESTING => "DELETE_TESTING"
  | GET_USER_TEST_RESULTS => "GET_USER_TEST_RESULTS"
  end.

Definition Permission_eq_dec (p q : Permission) : {p = q} + {p <> q}.
Proof. decide equality. Defined.

(** Modelled from the spec: [src.models.state] is not among the sources.  The
    spec names the vacancy states DRAFT / OPENED / CLOSED, of which only
    OPENED is tested by the service. *)
Inductive VacancyState : Set := DRAFT | OPENED | CLOSED.

Definition VacancyState_eq_dec (a b : VacancyState) : {a = b} + {a <> b}.
Proof. decide equality. Defined.

(** [a != b] on vacancy states *)
Definition VacancyState_ne (a b : VacancyState) : bool :=
  if VacancyState_eq_dec a b then false else true.

(** Modelled from the spec: [src.models.state] is not among the sources.  The
    spec names the account states ACTIVE / INACTIVE. *)
Inductive UserState : Set := ACTIVE | INACTIVE.

Definition UserState_eq_dec (a b : UserState) : {a = b} + {a <> b}.
Proof. decide equality. Defined.

(** Modelled from the spec: [src.models.auth.BaseUser] is not among the
    sources.  The caller context carries an id, a permission set and an
    account state. *)
Module BaseUser.
Record t : Set := Build { id : UUID; permissions : list Permission; state : UserState }.
End BaseUser.

(** src/models/schemas/vacancy.py, class Vacancy *)
Module Vacancy.
Record t : Set := Build {
  id : UUID;
  title : string;
  content : string;
  poster : option UUID;
  state : VacancyState;
  test_time : Z;
  created_at : datetime;
  updated_at : option datetime
}.
End Vacancy.

(** Modelled from the spec: the Testing row (identity and owning vacancy; its
    configuration fields are not detailed). *)
Module Testing.
Record t : Set := Build { id : UUID; vacancy_id : UUID }.
End Testing.

(** Modelled from the spec: question rows (identity, owning testing, content). *)
Module PracticalQuestion.
Record t : Set := Build { id : UUID; testing_id : UUID; content : string }.
End PracticalQuestion.

Module TheoreticalQuestion.
Record t : Set := Build { id : UUID; testing_id : UUID; content : string }.
End TheoreticalQuestion.

(** Modelled from the spec: the Attempt row. *)
Module Attempt.
Record t : Set := Build {
  id : UUID;
  user_id : UUID;
  testing_id : UUID;
  correct_answers : Z;
  total_answers : Z;
  created_at : datetime
}.
End Attempt.

(** Modelled from the spec: [schemas.AttemptTest] is not among the sources.
    It is the Attempt, optionally enriched with its Testing as [test]. *)
Module AttemptTest.
Record t : Set := Build {
  id : UUID;
  user_id : UUID;
  testing_id : UUID;
  correct_answers : Z;
  total_answers : Z;
  created_at : datetime;
  test : option Testing.t
}.

(** [AttemptTest.model_validate(attempt)] on a repository row *)
Definition model_validate (a : Attempt.t) : t :=
  {| id := Attempt.id a;
     user_id := Attempt.user_id a;
     testing_id := Attempt.testing_id a;
     correct_answers := Attempt.correct_answers a;
     total_answers := Attempt.total_answers a;
     created_at := Attempt.created_at a;
     test := None |}.

(** Modelled from the spec: the value that section 4.4 gives to the
    expression returned on lines 254 and 308, the created Attempt with the
    Testing embedded as [test].  How Python builds the arguments of that
    expression for the schema as modelled is [returned_arguments] below. *)
Definition with_test (a : t) (testing : Testing.t) : t :=
  {| id := id a;
     user_id := user_id a;
     testing_id := testing_id a;
     correct_answers := correct_answers a;
     total_answers := total_answers a;
     created_at := created_at a;
     test := Some testing |}.
End AttemptTest.

(** Modelled from the spec: the schemas of the answers submitted to a
    complete call are not among the sources.  The service does not read
    them: scoring is left as a todo in the source. *)
Module AnswerToTheoreticalQuestion.
Record t : Set := Build { question_id : UUID; answer : string }.
End AnswerToTheoreticalQuestion.

Module AnswerToPracticalQuestion.
Record t : Set := Build { question_id : UUID; answer : string }.
End AnswerToPracticalQuestion.

(** [Literal["title", "created_at"]] *)
Inductive OrderBy : Set := by_title | by_created_at.

(** ** Exceptions *)

(** The message of an exception, kept as its template and context.
    - [PageNotFound]: the page is not found;
    - [InvalidPerPage]: wrong number of elements per page;
    - [TestingNotFound id]: the testing with this id is not found;
    - [VacancyNotFound id]: the vacancy with this id is not found;
    - [VacancyNotOpened id]: the vacancy with this id is not opened;
    - [TimeExpired]: the time for passing the test has expired. *)
Inductive Detail : Set :=
| PageNotFound
| InvalidPerPage
| TestingNotFound (id : UUID)
| VacancyNotFound (id : UUID)
| VacancyNotOpened (id : UUID)
| TimeExpired.

(** [exceptions.NotFound] and [exceptions.BadRequest] are raised by the
    service; [Forbidden] and [InvalidState] by the guard (modelled from the
    spec); [OverflowError] by Python's date arithmetic. *)
Inductive exn : Set :=
| NotFound (msg : Detail)
| BadRequest (msg : Detail)
| Forbidden
| InvalidState
| OverflowError.

(** ** Date arithmetic *)

(** [timedelta(days=d)]: raises OverflowError when the magnitude of [d]
    exceeds 999999999 days. *)
Definition timedelta (days : Z) : exn + Z :=
  if Z.abs days <=? 999999999 then inr (days * us_per_day) else inl OverflowError.

(** [t + delta] on a datetime: raises OverflowError when the sum leaves the
    representable range. *)
Definition datetime_add (t : datetime) (delta : Z) : exn + datetime :=
  if datetime_in_range (t + delta) then inr (t + delta) else inl OverflowError.

(** [created_at + timedelta(days=test_time)] *)
Definition add_days (created_at : datetime) (test_time : Z) : exn + datetime :=
  match timedelta test_time with
  | inl e => inl e
  | inr delta => datetime_add created_at delta
  end.

(** ** Programs over awaited calls *)

(** The calls a service method awaits: the methods of the injected
    repositories, named after the attribute they are called on ([_repo] is
    the TestingRepo), and the wall clock. *)
Inductive Call : Set :=
| repo_get (id : UUID)
| repo_get_all (vacancy_id : UUID)
| vacancy_repo_get (id : UUID)
| attempt_repo_get_first (user_id test_id : UUID)
| attempt_repo_get_all (limit offset : Z) (order_by : OrderBy)
    (user_id testing_id : option UUID)
| attempt_repo_search (limit offset : Z) (order_by : OrderBy) (query : string)
    (user_id : option UUID)
| attempt_repo_create (user_id testing_id : UUID) (correct_answers total_answers : Z)
| practical_question_repo_get_all (testing_id : UUID)
| theoretical_question_repo_get_all (testing_id : UUID)
| datetime_now.

(** What each call answers. *)
Definition Resp (c : Call) : Set :=
  match c with
  | repo_get _ => option Testing.t
  | repo_get_all _ => list Testing.t
  | vacancy_repo_get _ => option Vacancy.t
  | attempt_repo_get_first _ _ => option Attempt.t
  | attempt_repo_get_all _ _ _ _ _ => list Attempt.t
  | attempt_repo_search _ _ _ _ _ => list Attempt.t
  | attempt_repo_create _ _ _ _ => Attempt.t
  | practical_question_repo_get_all _ => list PracticalQuestion.t
  | theoretical_question_repo_get_all _ => list TheoreticalQuestion.t
  | datetime_now => datetime
  end.

Inductive Prog (R : Type) : Type :=
| Ret (r : R)
| Raise (e : exn)
| Await (c : Call) (k : Resp c -> Prog R).

Arguments Ret {R} r.
Arguments Raise {R} e.
Arguments Await {R} c k.

Fixpoint bind {A B : Type} (p : Prog A) (f : A -> Prog B) : Prog B :=
  match p with
  | Ret a => f a
  | Raise e => Raise e
  | Await c k => Await c (fun x => bind (k x) f)
  end.

(** A pure computation that may raise. *)
Definition lift {A : Type} (r : exn + A) : Prog A :=
  match r with
  | inl e => Raise e
  | inr a => Ret a
  end.

Declare Scope prog_scope.
Delimit Scope prog_scope with prog.
Bind Scope prog_scope with Prog.

Notation "x <- 'await' c ;; k" := (Await c (fun x => k))
  (at level 61, c at next level, right associativity) : prog_scope.
Notation "x <- p ;; k" := (bind p (fun x => k))
  (at level 61, p at next level, right associativity) : prog_scope.
Notation "p ;; k" := (bind p (fun _ => k))
  (at level 61, right associativity) : prog_scope.
Notation "'raise_if' b 'then' e ;; k" := (if b then Raise e else k)
  (at level 61, b at next level, e at next level, right associativity) : prog_scope.

(** Python truthiness of an optional string: [None] and the empty string are
    falsy. *)
Definition truthy (q : option string) : bool :=
  match q with
  | Some s => negb (String.eqb s EmptyString)
  | None => false
  end.

(** [min] of three integers *)
Definition min3 (a b c : Z) : Z := Z.min (Z.min a b) c.

(** [if not x: raise e], then go on with the value of [x] *)
Definition require {A : Type} (x : option A) (e : exn) : Prog A :=
  match x with
  | Some a => Ret a
  | None => Raise e
  end.

(** The schemas of Testing and of the questions carry the fields of their
    rows: [model_validate] copies them. *)
Definition Testing_model_validate (x : Testing.t) : Testing.t := x.
Definition PracticalQuestion_model_validate (x : PracticalQuestion.t) : PracticalQuestion.t := x.
Definition TheoreticalQuestion_model_validate (x : TheoreticalQuestion.t) : TheoreticalQuestion.t := x.

(** ** The service (src/services/testing.py) *)

Record TestingApplicationService : Set := { current_user : BaseUser.t }.

(** Modelled from the spec: [src.services.auth.filters] is not among the
    sources.  The guard fails with Forbidden when the required permission is
    not among the caller's, and with InvalidState when the caller's account
    is not in the required state; the method body runs only after it. *)
Definition permission_filter (p : Permission) {R : Type}
    (method : TestingApplicationService -> Prog R) (self : TestingApplicationService) : Prog R :=
  if in_dec Permission_eq_dec p (BaseUser.permissions (current_user self))
  then method self else Raise Forbidden.

Definition state_filter (st : UserState) {R : Type}
    (method : TestingApplicationService -> Prog R) (self : TestingApplicationService) : Prog R :=
  if UserState_eq_dec (BaseUser.state (current_user self)) st
  then method self else Raise InvalidState.

Local Open Scope prog_scope.

Definition get_test_attempts (self : TestingApplicationService)
    (testing_id : option UUID) (page per_page : Z) (order_by : OrderBy)
  : Prog (list AttemptTest.t) :=
  permission_filter GET_SELF_TEST_RESULTS (state_filter ACTIVE (fun self =>
    raise_if (page <? 1) then NotFound PageNotFound ;;
    raise_if (per_page <? 1) then BadRequest InvalidPerPage ;;
    let per_page_limit := 40 in
    let per_page := min3 per_page per_page_limit 2147483646 in
    let offset := Z.min ((page - 1) * per_page) 2147483646 in
    attempts <- await (attempt_repo_get_all per_page offset order_by
                         (Some (BaseUser.id (current_user self))) testing_id) ;;
    Ret (map AttemptTest.model_validate attempts))) self.

Definition get_user_attempts (self : TestingApplicationService)
    (page per_page : Z) (order_by : OrderBy) (query : option string) (user_id : option UUID)
  : Prog (list AttemptTest.t) :=
  permission_filter GET_USER_TEST_RESULTS (state_filter ACTIVE (fun self =>
    raise_if (page <? 1) then NotFound PageNotFound ;;
    raise_if (per_page <? 1) then BadRequest InvalidPerPage ;;
    let per_page_limit := 40 in
    let per_page := min3 per_page per_page_limit 2147483646 in
    let offset := Z.min ((page - 1) * per_page) 2147483646 in
    if truthy query then
      attempts <- await (attempt_repo_search per_page offset order_by
                           (match query with Some q => q | None => EmptyString end) user_id) ;;
      Ret (map AttemptTest.model_validate attempts)
    else
      attempts <- await (attempt_repo_get_all per_page offset order_by user_id None) ;;
      Ret (map AttemptTest.model_validate attempts))) self.

Definition start_practical_testing (self : TestingApplicationService) (testing_id : UUID)
  : Prog (list PracticalQuestion.t) :=
  permission_filter START_TESTING (state_filter ACTIVE (fun self =>
    testing <- await (repo_get testing_id) ;;
    testing <- require testing (NotFound (TestingNotFound testing_id)) ;;
    vacancy <- await (vacancy_repo_get (Testing.vacancy_id testing)) ;;
    vacancy <- require vacancy (NotFound (VacancyNotFound (Testing.vacancy_id testing))) ;;
    raise_if (VacancyState_ne (Vacancy.state vacancy) OPENED)
      then BadRequest (VacancyNotOpened (Testing.vacancy_id testing)) ;;
    first_attempt <- await (attempt_repo_get_first (BaseUser.id (current_user self)) testing_id) ;;
    match first_attempt with
    | Some first_attempt =>
        time_now <- await datetime_now ;;
        time_deadline <- lift (add_days (Attempt.created_at first_attempt)
                                 (Vacancy.test_time vacancy)) ;;
        raise_if (time_now >? time_deadline) then BadRequest TimeExpired ;;
        Ret tt
    | None => Ret tt
    end ;;
    questions <- await (practical_question_repo_get_all testing_id) ;;
    Ret (map PracticalQuestion_model_validate questions))) self.

Definition start_theoretical_testing (self : TestingApplicationService) (testing_id : UUID)
  : Prog (list TheoreticalQuestion.t) :=
  permission_filter START_TESTING (state_filter ACTIVE (fun self =>
    testing <- await (repo_get testing_id) ;;
    testing <- require testing (NotFound (TestingNotFound testing_id)) ;;
    vacancy <- await (vacancy_repo_get (Testing.vacancy_id testing)) ;;
    vacancy <- require vacancy (NotFound (VacancyNotFound (Testing.vacancy_id testing))) ;;
    raise_if (VacancyState_ne (Vacancy.state vacancy) OPENED)
      then BadRequest (VacancyNotOpened (Testing.vacancy_id testing)) ;;
    first_attempt <- await (attempt_repo_get_first (BaseUser.id (current_user self)) testing_id) ;;
    match first_attempt with
    | Some first_attempt =>
        time_now <- await datetime_now ;;
        time_deadline <- lift (add_days (Attempt.created_at first_attempt)
                                 (Vacancy.test_time vacancy)) ;;
        raise_if (time_now >? time_deadline) then BadRequest TimeExpired ;;
        Ret tt
    | None => Ret tt
    end ;;
    questions <- await (theoretical_question_repo_get_all testing_id) ;;
    Ret (map TheoreticalQuestion_model_validate questions))) self.

Definition complete_theoretical_testing (self : TestingApplicationService) (testing_id : UUID)
    (data : list AnswerToTheoreticalQuestion.t) : Prog AttemptTest.t :=
  permission_filter COMPLETE_TESTING (state_filter ACTIVE (fun self =>
    testing <- await (repo_get testing_id) ;;
    testing <- require testing (NotFound (TestingNotFound testing_id)) ;;
    vacancy <- await (vacancy_repo_get (Testing.vacancy_id testing)) ;;
    vacancy <- require vacancy (NotFound (VacancyNotFound (Testing.vacancy_id testing))) ;;
    raise_if (VacancyState_ne (Vacancy.state vacancy) OPENED)
      then BadRequest (VacancyNotOpened (Testing.vacancy_id testing)) ;;
    first_attempt <- await (attempt_repo_get_first (BaseUser.id (current_user self)) testing_id) ;;
    match first_attempt with
    | Some first_attempt =>
        time_now <- await datetime_now ;;
        time_deadline <- lift (add_days (Attempt.created_at first_attempt)
                                 (Vacancy.test_time vacancy)) ;;
        raise_if (time_now >? time_deadline) then BadRequest TimeExpired ;;
        Ret tt
    | None => Ret tt
    end ;;
    questions <- await (theoretical_question_repo_get_all testing_id) ;;
    let correct_answers := 0 in
    created <- await (attempt_repo_create (BaseUser.id (current_user self)) testing_id
                        correct_answers (Z.of_nat (List.length questions))) ;;
    let attempt := AttemptTest.model_validate created in
    Ret (AttemptTest.with_test attempt (Testing_model_validate testing)))) self.

Definition complete_practical_testing (self : TestingApplicationService) (testing_id : UUID)
    (data : list AnswerToPracticalQuestion.t) : Prog AttemptTest.t :=
  permission_filter COMPLETE_TESTING (state_filter ACTIVE (fun self =>
    testing <- await (repo_get testing_id) ;;
    testing <- require testing (NotFound (TestingNotFound testing_id)) ;;
    vacancy <- await (vacancy_repo_get (Testing.vacancy_id testing)) ;;
    vacancy <- require vacancy (NotFound (VacancyNotFound (Testing.vacancy_id testing))) ;;
    raise_if (VacancyState_ne (Vacancy.state vacancy) OPENED)
      then BadRequest (VacancyNotOpened (Testing.vacancy_id testing)) ;;
    first_attempt <- await (attempt_repo_get_first (BaseUser.id (current_user self)) testing_id) ;;
    match first_attempt with
    | Some first_attempt =>
        time_now <- await datetime_now ;;
        time_deadline <- lift (add_days (Attempt.created_at first_attempt)
                                 (Vacancy.test_time vacancy)) ;;
        raise_if (time_now >? time_deadline) then BadRequest TimeExpired ;;
        Ret tt
    | None => Ret tt
    end ;;
    questions <- await (practical_question_repo_get_all testing_id) ;;
    let correct_answers := 0 in
    created <- await (attempt_repo_create (BaseUser.id (current_user self)) testing_id
                        correct_answers (Z.of_nat (List.length questions))) ;;
    let attempt := AttemptTest.model_validate created in
    Ret (AttemptTest.with_test attempt (Testing_model_validate testing)))) self.

Definition get_testing (self : TestingApplicationService) (testing_id : UUID)
  : Prog Testing.t :=
  permission_filter GET_TESTING (state_filter ACTIVE (fun self =>
    testing <- await (repo_get testing_id) ;;
    testing <- require testing (NotFound (TestingNotFound testing_id)) ;;
    vacancy <- await (vacancy_repo_get (Testing.vacancy_id testing)) ;;
    vacancy <- require vacancy (NotFound (VacancyNotFound (Testing.vacancy_id testing))) ;;
    raise_if (VacancyState_ne (Vacancy.state vacancy) OPENED)
      then BadRequest (VacancyNotOpened (Testing.vacancy_id testing)) ;;
    Ret (Testing_model_validate testing))) self.

Definition get_testings (self : TestingApplicationService) (vacancy_id : UUID)
  : Prog (list Testing.t) :=
  permission_filter GET_TESTING (state_filter ACTIVE (fun self =>
    testings <- await (repo_get_all vacancy_id) ;;
    Ret (map Testing_model_validate testings))) self.

Local Close Scope prog_scope.

(** ** The store behind the repositories *)

(** Modelled from the spec: the repositories ([src.services.repository]) are
    not among the sources.  Each is a table of rows; the clock is the wall
    clock read by [datetime.now()] and stamped on created rows; [next_id] is
    the identity given to the next created row. *)
Record Store : Set := {
  testings : list Testing.t;
  vacancies : list Vacancy.t;
  attempts : list Attempt.t;
  practical_questions : list PracticalQuestion.t;
  theoretical_questions : list TheoreticalQuestion.t;
  clock : datetime;
  next_id : UUID
}.

(** The attempts of one user at one testing, in table order. *)
Definition attempts_of (user_id test_id : UUID) (l : list Attempt.t) : list Attempt.t :=
  filter (fun a => N.eqb (Attempt.user_id a) user_id && N.eqb (Attempt.testing_id a) test_id) l.

(** The first row in ascending order of [created_at] (the earliest in the
    table among equal times). *)
Fixpoint earliest (l : list Attempt.t) : option Attempt.t :=
  match l with
  | [] => None
  | a :: l' =>
      match earliest l' with
      | None => Some a
      | Some b => if Attempt.created_at a <=? Attempt.created_at b then Some a else Some b
      end
  end.

(** An absent filter keeps every row. *)
Definition matches (filter_id : option UUID) (id : UUID) : bool :=
  match filter_id with
  | Some x => N.eqb id x
  | None => true
  end.

Definition page_of {A : Type} (limit offset : Z) (rows : list A) : list A :=
  firstn (Z.to_nat limit) (skipn (Z.to_nat offset) rows).

Definition new_attempt (s : Store) (user_id testing_id : UUID) (correct_answers total_answers : Z)
  : Attempt.t :=
  {| Attempt.id := next_id s;
     Attempt.user_id := user_id;
     Attempt.testing_id := testing_id;
     Attempt.correct_answers := correct_answers;
     Attempt.total_answers := total_answers;
     Attempt.created_at := clock s |}.

Definition add_attempt (s : Store) (a : Attempt.t) : Store :=
  {| testings := testings s;
     vacancies := vacancies s;
     attempts := attempts s ++ [a];
     practical_questions := practical_questions s;
     theoretical_questions := theoretical_questions s;
     clock := clock s;
     next_id := N.succ (next_id s) |}.

(** The outcome of running a program: what it returned or raised, the store
    it left, and the calls it awaited, in order. *)
Record Outcome (R : Type) : Type := {
  result : exn + R;
  final : Store;
  trace : list Call
}.

Arguments result {R} o.
Arguments final {R} o.
Arguments trace {R} o.

Section Repository.

(** The comparison behind the ORDER BY of the attempt queries and the match
    of a search query against a row are owned by the repository and left
    open by the spec: they are parameters of the model. *)
Variable before : Store -> OrderBy -> Attempt.t -> Attempt.t -> bool.
Variable search_match : Store -> string -> Attempt.t -> bool.

(** ORDER BY as a stable insertion sort on [before]. *)
Fixpoint insert_sorted (s : Store) (o : OrderBy) (a : Attempt.t) (l : list Attempt.t)
  : list Attempt.t :=
  match l with
  | [] => [a]
  | b :: l' => if before s o a b then a :: l else b :: insert_sorted s o a l'
  end.

Definition order_attempts (s : Store) (o : OrderBy) (l : list Attempt.t) : list Attempt.t :=
  fold_right (insert_sorted s o) [] l.

(** Modelled from the spec: the repository contracts.
    - [get(id)]: the row with this id, or none;
    - [get_all(vacancy_id)], [get_all(testing_id)]: the rows of that owner;
    - [get_first(user_id, test_id)]: the earliest Attempt, or none;
    - [get_all(limit, offset, order_by, user_id, testing_id)] and
      [search(...)]: the filtered rows, ordered, then paged;
    - [create(...)]: appends one Attempt row and returns it. *)
Definition attempt_get_all (s : Store) (limit offset : Z) (order_by : OrderBy)
    (user_id testing_id : option UUID) : list Attempt.t :=
  page_of limit offset
    (order_attempts s order_by
       (filter (fun a => matches user_id (Attempt.user_id a)
                         && matches testing_id (Attempt.testing_id a)) (attempts s))).

Definition attempt_search (s : Store) (limit offset : Z) (order_by : OrderBy)
    (query : string) (user_id : option UUID) : list Attempt.t :=
  page_of limit offset
    (order_attempts s order_by
       (filter (fun a => search_match s query a
                         && matches user_id (Attempt.user_id a)) (attempts s))).

Definition handle (c : Call) (s : Store) : Resp c * Store :=
  match c return Resp c * Store with
  | repo_get id => (find (fun t => N.eqb (Testing.id t) id) (testings s), s)
  | repo_get_all vacancy_id =>
      (filter (fun t => N.eqb (Testing.vacancy_id t) vacancy_id) (testings s), s)
  | vacancy_repo_get id => (find (fun v => N.eqb (Vacancy.id v) id) (vacancies s), s)
  | attempt_repo_get_first user_id test_id =>
      (earliest (attempts_of user_id test_id (attempts s)), s)
  | attempt_repo_get_all limit offset order_by user_id testing_id =>
      (attempt_get_all s limit offset order_by user_id testing_id, s)
  | attempt_repo_search limit offset order_by query user_id =>
      (attempt_search s limit offset order_by query user_id, s)
  | attempt_repo_create user_id testing_id correct_answers total_answers =>
      let a := new_attempt s user_id testing_id correct_answers total_answers in
      (a, add_attempt s a)
  | practical_question_repo_get_all testing_id =>
      (filter (fun q => N.eqb (PracticalQuestion.testing_id q) testing_id)
         (practical_questions s), s)
  | theoretical_question_repo_get_all testing_id =>
      (filter (fun q => N.eqb (TheoreticalQuestion.testing_id q) testing_id)
         (theoretical_questions s), s)
  | datetime_now => (clock s, s)
  end.

Fixpoint run {R : Type} (p : Prog R) (s : Store) : Outcome R :=
  match p with
  | Ret r => {| result := inr r; final := s; trace := [] |}
  | Raise e => {| result := inl e; final := s; trace := [] |}
  | Await c k =>
      let (x, s') := handle c s in
      let o := run (k x) s' in
      {| result := result o; final := final o; trace := c :: trace o |}
  end.

End Repository.

(** ** Observations *)

(** The exception a run ended with, if any. *)
Definition raised {R : Type} (o : Outcome R) : option exn :=
  match result o with
  | inl e => Some e
  | inr _ => None
  end.

(** The outcome of a run, its returned value forgotten. *)
Definition forget {R : Type} (o : Outcome R) : Outcome unit :=
  {| result := match result o with inl e => inl e | inr _ => inr tt end;
     final := final o;
     trace := trace o |}.

(** The guard of a method passes for this caller. *)
Definition allowed (p : Permission) (self : TestingApplicationService) : Prop :=
  In p (BaseUser.permissions (current_user self))
  /\ BaseUser.state (current_user self) = ACTIVE.

(** The calls that write to a table. *)
Definition is_write (c : Call) : bool :=
  match c with
  | attempt_repo_create _ _ _ _ => true
  | _ => false
  end.

(** The calls of the checks that precede the body of a lifecycle method. *)
Definition is_check (c : Call) : bool :=
  match c with
  | repo_get _ | vacancy_repo_get _ | attempt_repo_get_first _ _ | datetime_now => true
  | _ => false
  end.

(** The four lifecycle methods. *)
Inductive LifecycleOp : Set :=
| StartPractical
| StartTheoretical
| CompleteTheoretical (data : list AnswerToTheoreticalQuestion.t)
| CompletePractical (data : list AnswerToPracticalQuestion.t).

Definition lifecycle_permission (op : LifecycleOp) : Permission :=
  match op with
  | StartPractical | StartTheoretical => START_TESTING
  | CompleteTheoretical _ | CompletePractical _ => COMPLETE_TESTING
  end.

Definition is_start (op : LifecycleOp) : bool :=
  match op with
  | StartPractical | StartTheoretical => true
  | _ => false
  end.

(** [t0 + d days] is a datetime: [timedelta(days=d)] and the sum are within
    Python's ranges. *)
Definition deadline_representable (t0 d : Z) : Prop :=
  Z.abs d <= 999999999 /\ 0 <= t0 + d * us_per_day < MAXORDINAL * us_per_day.

(** The row looked up by [get(id)]. *)
Definition testing_row (s : Store) (id : UUID) : option Testing.t :=
  find (fun t => N.eqb (Testing.id t) id) (testings s).

Definition vacancy_row (s : Store) (id : UUID) : option Vacancy.t :=
  find (fun v => N.eqb (Vacancy.id v) id) (vacancies s).

(** The questions of one testing. *)
Definition practical_questions_of (s : Store) (id : UUID) : list PracticalQuestion.t :=
  filter (fun q => N.eqb (PracticalQuestion.testing_id q) id) (practical_questions s).

Definition theoretical_questions_of (s : Store) (id : UUID) : list TheoreticalQuestion.t :=
  filter (fun q => N.eqb (TheoreticalQuestion.testing_id q) id) (theoretical_questions s).

Section Lifecycle.

Variable before : Store -> OrderBy -> Attempt.t -> Attempt.t -> bool.
Variable search_match : Store -> string -> Attempt.t -> bool.

(** A lifecycle method run on a store, its returned value forgotten. *)
Definition lifecycle (op : LifecycleOp) (self : TestingApplicationService)
    (testing_id : UUID) (s : Store) : Outcome unit :=
  match op with
  | StartPractical =>
      forget (run before search_match (start_practical_testing self testing_id) s)
  | StartTheoretical =>
      forget (run before search_match (start_theoretical_testing self testing_id) s)
  | CompleteTheoretical data =>
      forget (run before search_match
                (complete_theoretical_testing self testing_id data) s)
  | CompletePractical data =>
      forget (run before search_match
                (complete_practical_testing self testing_id data) s)
  end.

End Lifecycle.

(** ** The checks of a lifecycle method, as a decision table

    What the guard decides for a caller, and the outcome of the block of
    checks that opens each of the four lifecycle methods, read off the store:
    [tail] is the outcome of the rest of the method, given the testing row
    and the calls awaited so far.  The methods are proved to run to this
    table in [start_practical_testing_run] and its siblings. *)
Definition guard (p : Permission) (self : TestingApplicationService) : option exn :=
  if in_dec Permission_eq_dec p (BaseUser.permissions (current_user self))
  then if UserState_eq_dec (BaseUser.state (current_user self)) ACTIVE
       then None else Some InvalidState
  else Some Forbidden.

Definition failed {R : Type} (e : exn) (s : Store) (calls : list Call) : Outcome R :=
  {| result := inl e; final := s; trace := calls |}.

Definition checks_table {R : Type} (p : Permission) (self : TestingApplicationService)
    (testing_id : UUID) (s : Store) (tail : Testing.t -> list Call -> Outcome R) : Outcome R :=
  let user := BaseUser.id (current_user self) in
  match guard p self with
  | Some e => failed e s []
  | None =>
  match testing_row s testing_id with
  | None => failed (NotFound (TestingNotFound testing_id)) s [repo_get testing_id]
  | Some testing =>
  let gate := [repo_get testing_id; vacancy_repo_get (Testing.vacancy_id testing)] in
  match vacancy_row s (Testing.vacancy_id testing) with
  | None => failed (NotFound (VacancyNotFound (Testing.vacancy_id testing))) s gate
  | Some vacancy =>
  if VacancyState_ne (Vacancy.state vacancy) OPENED
  then failed (BadRequest (VacancyNotOpened (Testing.vacancy_id testing))) s gate
  else
  match earliest (attempts_of user testing_id (attempts s)) with
  | None => tail testing (gate ++ [attempt_repo_get_first user testing_id])
  | Some first_attempt =>
      let checks := gate ++ [attempt_repo_get_first user testing_id; datetime_now] in
      match add_days (Attempt.created_at first_attempt) (Vacancy.test_time vacancy) with
      | inl e => failed e s checks
      | inr deadline =>
          if clock s >? deadline
          then failed (BadRequest TimeExpired) s checks
          else tail testing checks
      end
  end end end end.

(** The attempt row a complete call creates for [n] questions. *)
Definition completed_row (self : TestingApplicationService) (testing_id : UUID) (s : Store)
    (n : nat) : Attempt.t :=
  new_attempt s (BaseUser.id (current_user self)) testing_id 0 (Z.of_nat n).

Definition start_tail {Q : Type} (s : Store) (questions : list Q) (read : Call)
  : Testing.t -> list Call -> Outcome (list Q) :=
  fun _ checks => {| result := inr questions; final := s; trace := checks ++ [read] |}.

Definition complete_tail (self : TestingApplicationService) (testing_id : UUID) (s : Store)
    (n : nat) (read : Call) : Testing.t -> list Call -> Outcome AttemptTest.t :=
  fun testing checks =>
    let row := completed_row self testing_id s n in
    {| result := inr (AttemptTest.with_test (AttemptTest.model_validate row) testing);
       final := add_attempt s row;
       trace := checks ++ [read;
                           attempt_repo_create (BaseUser.id (current_user self)) testing_id
                             0 (Z.of_nat n)] |}.

(** The rest of a lifecycle method after its checks, its value forgotten. *)
Definition lifecycle_tail (op : LifecycleOp) (self : TestingApplicationService)
    (testing_id : UUID) (s : Store) : Testing.t -> list Call -> Outcome unit :=
  fun testing checks =>
    match op with
    | StartPractical =>
        forget (start_tail s
                  (map PracticalQuestion_model_validate (practical_questions_of s testing_id))
                  (practical_question_repo_get_all testing_id) testing checks)
    | StartTheoretical =>
        forget (start_tail s
                  (map TheoreticalQuestion_model_validate (theoretical_questions_of s testing_id))
                  (theoretical_question_repo_get_all testing_id) testing checks)
    | CompleteTheoretical _ =>
        forget (complete_tail self testing_id s
                  (List.length (theoretical_questions_of s testing_id))
                  (theoretical_question_repo_get_all testing_id) testing checks)
    | CompletePractical _ =>
        forget (complete_tail self testing_id s
                  (List.length (practical_questions_of s testing_id))
                  (practical_question_repo_get_all testing_id) testing checks)
    end.

(** ** The value the complete methods return, as Python builds it

    Lines 254 and 308 return the call of AttemptTest on the keyword
    arguments of the dumped [attempt] followed by [test].  [attempt] is an
    AttemptTest (lines 245 and 300), so its dump has one entry for each field
    the schema declares, [test] among them for the schema as modelled; and a
    call that is given one keyword twice is a TypeError. *)
Inductive FieldValue : Set :=
| uuid_value (x : UUID)
| int_value (z : Z)
| datetime_value (t : datetime)
| test_value (t : option Testing.t).

(** [attempt.model_dump()]: the declared fields, in their order. *)
Definition AttemptTest_model_dump (a : AttemptTest.t) : list (string * FieldValue) :=
  [ ("id"%string, uuid_value (AttemptTest.id a));
    ("user_id"%string, uuid_value (AttemptTest.user_id a));
    ("testing_id"%string, uuid_value (AttemptTest.testing_id a));
    ("correct_answers"%string, int_value (AttemptTest.correct_answers a));
    ("total_answers"%string, int_value (AttemptTest.total_answers a));
    ("created_at"%string, datetime_value (AttemptTest.created_at a));
    ("test"%string, test_value (AttemptTest.test a)) ].

(** TypeError: the call got multiple values for the keyword argument [key]. *)
Inductive TypeError : Set := multiple_values (key : string).

(** The keyword arguments of a call that unpacks [mapping] and then gives
    [key]. *)
Definition keyword_arguments (mapping : list (string * FieldValue)) (key : string)
    (value : FieldValue) : TypeError + list (string * FieldValue) :=
  if existsb (fun entry => String.eqb (fst entry) key) mapping
  then inl (multiple_values key)
  else inr (mapping ++ [(key, value)]).

(** The arguments of the AttemptTest that lines 254 and 308 return. *)
Definition returned_arguments (attempt : AttemptTest.t) (testing : Testing.t)
  : TypeError + list (string * FieldValue) :=
  keyword_arguments (AttemptTest_model_dump attempt) "test"
    (test_value (Some (Testing_model_validate testing))).



(** Two calls are alike when they are the same call, or the reads of the two
    question repositories for the same testing, or two creations of an
    attempt that differ at most in [total_answers]. *)
Definition alike (c1 c2 : Call) : Prop :=
  match c1, c2 with
  | theoretical_question_repo_get_all a, practical_question_repo_get_all b => a = b
  | attempt_repo_create u1 t1 k1 _, attempt_repo_create u2 t2 k2 _ =>
      u1 = u2 /\ t1 = t2 /\ k1 = k2
  | _, _ => c1 = c2
  end.

(** The page size and the offset a listing method hands to its query. *)
Definition query_limit (c : Call) : option Z :=
  match c with
  | attempt_repo_get_all limit _ _ _ _ | attempt_repo_search limit _ _ _ _ => Some limit
  | _ => None
  end.

Definition query_offset (c : Call) : option Z :=
  match c with
  | attempt_repo_get_all _ offset _ _ _ | attempt_repo_search _ offset _ _ _ => Some offset
  | _ => None
  end.

(** The user a query of attempts is restricted to ([None]: all users). *)
Definition query_user (c : Call) : option UUID :=
  match c with
  | attempt_repo_get_all _ _ _ user_id _ | attempt_repo_search _ _ _ _ user_id => user_id
  | _ => None
  end.

(** ** A sample deployment

    One repository implementation and a small store, on which the statements
    below are exercised. *)
Module Sample.

(** The titles of the testings, which the rows of the model do not carry. *)
Definition title_of (testing_id : UUID) : string :=
  if N.eqb testing_id 20%N then "Proof engineering"
  else if N.eqb testing_id 21%N then "Databases"
  else "".

(** The comparison behind ORDER BY: by creation time, or by the title of
    the attempted testing. *)
Definition before (_ : Store) (o : OrderBy) (a b : Attempt.t) : bool :=
  match o with
  | by_created_at => Attempt.created_at a <=? Attempt.created_at b
  | by_title => String.leb (title_of (Attempt.testing_id a)) (title_of (Attempt.testing_id b))
  end.

(** A search by the beginning of the title of the attempted testing. *)
Definition search_match (_ : Store) (q : string) (a : Attempt.t) : bool :=
  String.prefix q (title_of (Attempt.testing_id a)).

Definition day (n : Z) : Z := n * us_per_day.

(** 2023-11-01T00:00:00 *)
Definition t0 : datetime := day 738824.

Definition candidate : BaseUser.t :=
  {| BaseUser.id := 1%N;
     BaseUser.permissions :=
       [GET_PUBLIC_VACANCY; GET_TESTING; START_TESTING; COMPLETE_TESTING; GET_SELF_TEST_RESULTS];
     BaseUser.state := ACTIVE |}.

Definition newcomer : BaseUser.t :=
  {| BaseUser.id := 3%N;
     BaseUser.permissions :=
       [GET_PUBLIC_VACANCY; GET_TESTING; START_TESTING; COMPLETE_TESTING; GET_SELF_TEST_RESULTS];
     BaseUser.state := ACTIVE |}.

Definition hr : BaseUser.t :=
  {| BaseUser.id := 2%N;
     BaseUser.permissions :=
       [GET_PRIVATE_VACANCY; CREATE_TESTING; UPDATE_TESTING; DELETE_TESTING;
        GET_USER_TEST_RESULTS];
     BaseUser.state := ACTIVE |}.

Definition as_candidate : TestingApplicationService := {| current_user := candidate |}.
Definition as_newcomer : TestingApplicationService := {| current_user := newcomer |}.
Definition as_hr : TestingApplicationService := {| current_user := hr |}.

Definition vacancy (id : UUID) (st : VacancyState) (days : Z) : Vacancy.t :=
  {| Vacancy.id := id;
     Vacancy.title := "Engineer";
     Vacancy.content := "Verification engineer";
     Vacancy.poster := Some 2%N;
     Vacancy.state := st;
     Vacancy.test_time := days;
     Vacancy.created_at := day 738800;
     Vacancy.updated_at := None |}.

Definition attempt (id user testing : UUID) (total : Z) (at_ : datetime) : Attempt.t :=
  {| Attempt.id := id;
     Attempt.user_id := user;
     Attempt.testing_id := testing;
     Attempt.correct_answers := 0;
     Attempt.total_answers := total;
     Attempt.created_at := at_ |}.

Definition theoretical (id testing : UUID) : TheoreticalQuestion.t :=
  {| TheoreticalQuestion.id := id;
     TheoreticalQuestion.testing_id := testing;
     TheoreticalQuestion.content := "Why?" |}.

Definition practical (id testing : UUID) : PracticalQuestion.t :=
  {| PracticalQuestion.id := id;
     PracticalQuestion.testing_id := testing;
     PracticalQuestion.content := "Do it" |}.

(** Vacancy 10 is opened with [days] days to pass its testing 20; vacancy 11
    is closed and owns testing 21; testing 22 points at no vacancy.  The
    candidate (user 1) first attempted testing 20 at [t0], and again two
    days later; user 4 attempted it a day before [t0]. *)
Definition store_with (days : Z) (now : datetime) : Store :=
  {| testings :=
       [ {| Testing.id := 20%N; Testing.vacancy_id := 10%N |};
         {| Testing.id := 21%N; Testing.vacancy_id := 11%N |};
         {| Testing.id := 22%N; Testing.vacancy_id := 99%N |} ];
     vacancies := [ vacancy 10%N OPENED days; vacancy 11%N CLOSED days ];
     attempts :=
       [ attempt 50%N 1%N 20%N 5 (t0 + day 2);
         attempt 51%N 4%N 20%N 5 (t0 - day 1);
         attempt 52%N 1%N 20%N 5 t0 ];
     practical_questions := [ practical 40%N 20%N; practical 41%N 20%N; practical 42%N 21%N ];
     theoretical_questions :=
       [ theoretical 30%N 20%N; theoretical 31%N 20%N; theoretical 32%N 20%N;
         theoretical 33%N 20%N; theoretical 34%N 20%N; theoretical 35%N 21%N ];
     clock := now;
     next_id := 60%N |}.

(** The store with 5 days allotted. *)
Definition store (now : datetime) : Store := store_with 5 now.

Definition run {R : Type} (p : Prog R) (s : Store) : Outcome R :=
  run before search_match p s.

End Sample.

(** ** The members of Permission by name and by value *)

(** The name of a member, as written in src/models/permission.py. *)
Definition Permission_name (p : Permission) : string :=
  match p with
  | GET_PUBLIC_VACANCY => "GET_PUBLIC_VACANCY"
  | GET_TESTING => "GET_TESTING"
  | START_TESTING => "START_TESTING"
  | COMPLETE_TESTING => "COMPLETE_TESTING"
  | GET_SELF_TEST_RESULTS => "GET_SELF_TEST_RESULTS"
  | GET_PRIVATE_VACANCY => "GET_PRIVATE_VACANCY"
  | CREATE_VACANCY => "CREATE_VACANCY"
  | UPDATE_VACANCY => "UPDATE_VACANCY"
  | DELETE_VACANCY => "DELETE_VACANCY"
  | CREATE_TESTING => "CREATE_TESTING"
  | UPDATE_TESTING => "UPDATE_TESTING"
  | DELETE_TESTING => "DELETE_TESTING"
  | GET_USER_TEST_RESULTS => "GET_USER_TEST_RESULTS"
  end.

(** The members in the order of their definition. *)
Definition Permission_members : list Permission :=
  [ GET_PUBLIC_VACANCY; GET_TESTING; START_TESTING; COMPLETE_TESTING; GET_SELF_TEST_RESULTS;
    GET_PRIVATE_VACANCY; CREATE_VACANCY; UPDATE_VACANCY; DELETE_VACANCY;
    CREATE_TESTING; UPDATE_TESTING; DELETE_TESTING; GET_USER_TEST_RESULTS ].

(** [Permission(value)]: the member with this value ([None]: ValueError). *)
Definition Permission_of_value (value : string) : option Permission :=
  find (fun p => String.eqb (Permission_value p) value) Permission_members.

(** [Permission[name]]: the member with this name ([None]: KeyError). *)
Definition Permission_of_name (name : string) : option Permission :=
  find (fun p => String.eqb (Permission_name p) name) Permission_members.

(** ** The vacancy schemas (src/models/schemas/vacancy.py) *)

(** The ValueError a field validator raises, by its message:
    - [content_empty]: the publication cannot be empty;
    - [content_too_long]: the publication cannot hold more than 32000
      characters;
    - [title_empty]: the title cannot be empty;
    - [title_too_long]: the title cannot hold more than 255 characters. *)
Inductive ValueError : Set :=
| content_empty
| content_too_long
| title_empty
| title_too_long.

(** [len(value)] of a str; a character of the model stands for one
    character of the Python string. *)
Definition len (value : string) : Z := Z.of_nat (String.length value).

(** [not value] on a str: only the empty string is falsy. *)
Definition is_falsy (value : string) : bool := String.eqb value EmptyString.

(** The errors of one validated field. *)
Definition errors_of {A : Type} (r : ValueError + A) : list ValueError :=
  match r with
  | inl e => [e]
  | inr _ => []
  end.

Module VacancyCreate.
Record t : Set := Build { title : string; content : string; state : VacancyState }.

Definition content_must_be_valid (value : string) : ValueError + string :=
  if is_falsy value then inl content_empty
  else if len value >? 32000 then inl content_too_long
  else inr value.

Definition title_must_be_valid (value : string) : ValueError + string :=
  if is_falsy value then inl title_empty
  else if len value >? 255 then inl title_too_long
  else inr value.

(** The construction of the model from its three fields: each field goes
    through its validator, in the order of the fields, and the errors of all
    fields are reported together. *)
Definition model_validate (title content : string) (state : VacancyState)
  : list ValueError + t :=
  match title_must_be_valid title, content_must_be_valid content with
  | inr title, inr content => inr {| title := title; content := content; state := state |}
  | r1, r2 => inl (errors_of r1 ++ errors_of r2)
  end.
End VacancyCreate.

Module VacancyUpdate.
(** Every field defaults to None; a validator runs on a field that is given. *)
Record t : Set := Build {
  title : option string;
  content : option string;
  state : option VacancyState
}.

Definition content_must_be_valid (value : string) : ValueError + string :=
  if negb (is_falsy value) && (len value >? 32000) then inl content_too_long
  else inr value.

Definition title_must_be_valid (value : string) : ValueError + string :=
  if negb (is_falsy value) && (len value >? 255) then inl title_too_long
  else inr value.

Definition validated (validator : string -> ValueError + string) (field : option string)
  : ValueError + option string :=
  match field with
  | None => inr None
  | Some value =>
      match validator value with
      | inl e => inl e
      | inr value => inr (Some value)
      end
  end.

Definition model_validate (title content : option string) (state : option VacancyState)
  : list ValueError + t :=
  match validated title_must_be_valid title, validated content_must_be_valid content with
  | inr title, inr content => inr {| title := title; content := content; state := state |}
  | r1, r2 => inl (errors_of r1 ++ errors_of r2)
  end.
End VacancyUpdate.

(** ** Creating and deleting testings *)

(** Modelled from the spec: [schemas.TestingCreate] is not among the
    sources, and the configuration fields it carries are not part of the
    Testing row of the model. *)
Module TestingCreate.
Record t : Set := Build { }.
End TestingCreate.

(** The calls of create_testing and delete_testing: those of [Call], and the
    two writes of the TestingRepo. *)
Inductive TestingCall : Set :=
| read (c : Call)
| repo_create (data : TestingCreate.t) (vacancy_id : UUID)
| repo_delete (id : UUID).

Definition TestingResp (c : TestingCall) : Set :=
  match c with
  | read c => Resp c
  | repo_create _ _ => Testing.t
  | repo_delete _ => unit
  end.

Inductive TestingProg (R : Type) : Type :=
| TRet (r : R)
| TRaise (e : exn)
| TAwait (c : TestingCall) (k : TestingResp c -> TestingProg R).

Arguments TRet {R} r.
Arguments TRaise {R} e.
Arguments TAwait {R} c k.

(** The decorators of a method, on a program over [TestingCall]: what
    [guard] decides, then the method. *)
Definition guarded {R : Type} (p : Permission) (method : TestingApplicationService -> TestingProg R)
    (self : TestingApplicationService) : TestingProg R :=
  match guard p self with
  | Some e => TRaise e
  | None => method self
  end.

Definition create_testing (self : TestingApplicationService) (vacancy_id : UUID)
    (data : TestingCreate.t) : TestingProg Testing.t :=
  guarded CREATE_TESTING (fun self =>
    TAwait (read (vacancy_repo_get vacancy_id)) (fun vacancy =>
    match vacancy with
    | None => TRaise (NotFound (VacancyNotFound vacancy_id))
    | Some vacancy =>
        if VacancyState_ne (Vacancy.state vacancy) OPENED
        then TRaise (BadRequest (VacancyNotOpened vacancy_id))
        else
          TAwait (repo_create data vacancy_id) (fun testing =>
          TRet (Testing_model_validate testing))
    end)) self.

Definition delete_testing (self : TestingApplicationService) (testing_id : UUID)
  : TestingProg unit :=
  guarded DELETE_TESTING (fun self =>
    TAwait (read (repo_get testing_id)) (fun testing =>
    match testing with
    | None => TRaise (NotFound (TestingNotFound testing_id))
    | Some testing =>
        TAwait (read (vacancy_repo_get (Testing.vacancy_id testing))) (fun vacancy =>
        match vacancy with
        | None => TRaise (NotFound (VacancyNotFound (Testing.vacancy_id testing)))
        | Some vacancy =>
            if VacancyState_ne (Vacancy.state vacancy) OPENED
            then TRaise (BadRequest (VacancyNotOpened (Testing.vacancy_id testing)))
            else TAwait (repo_delete testing_id) (fun _ => TRet tt)
        end)
    end)) self.

(** Modelled from the spec: [TestingRepo.create] appends one Testing row of
    the vacancy under the next identity and returns it; [TestingRepo.delete]
    is a hard delete of the testing rows with this id.  What the storage
    does to the questions and attempts of a deleted testing is left open by
    the spec and is not modelled: [remove_testing] gives the testings table
    after the delete, and nothing is stated of the other tables. *)
Definition new_testing (s : Store) (vacancy_id : UUID) : Testing.t :=
  {| Testing.id := next_id s; Testing.vacancy_id := vacancy_id |}.

Definition add_testing (s : Store) (t : Testing.t) : Store :=
  {| testings := testings s ++ [t];
     vacancies := vacancies s;
     attempts := attempts s;
     practical_questions := practical_questions s;
     theoretical_questions := theoretical_questions s;
     clock := clock s;
     next_id := N.succ (next_id s) |}.

Definition remove_testing (s : Store) (id : UUID) : Store :=
  {| testings := filter (fun t => negb (N.eqb (Testing.id t) id)) (testings s);
     vacancies := vacancies s;
     attempts := attempts s;
     practical_questions := practical_questions s;
     theoretical_questions := theoretical_questions s;
     clock := clock s;
     next_id := next_id s |}.

(** The wall clock moves to [now]; the tables stay. *)
Definition set_clock (now : datetime) (s : Store) : Store :=
  {| testings := testings s;
     vacancies := vacancies s;
     attempts := attempts s;
     practical_questions := practical_questions s;
     theoretical_questions := theoretical_questions s;
     clock := now;
     next_id := next_id s |}.

Section TestingRepository.

Variable before : Store -> OrderBy -> Attempt.t -> Attempt.t -> bool.
Variable search_match : Store -> string -> Attempt.t -> bool.

Definition handle_testing (c : TestingCall) (s : Store) : TestingResp c * Store :=
  match c return TestingResp c * Store with
  | read c => handle before search_match c s
  | repo_create _ vacancy_id =>
      let t := new_testing s vacancy_id in
      (t, add_testing s t)
  | repo_delete id => (tt, remove_testing s id)
  end.

(** The outcome of a program over [TestingCall], with the calls it awaited. *)
Fixpoint run_testing {R : Type} (p : TestingProg R) (s : Store)
  : (exn + R) * Store * list TestingCall :=
  match p with
  | TRet r => (inr r, s, [])
  | TRaise e => (inl e, s, [])
  | TAwait c k =>
      let (x, s') := handle_testing c s in
      let '(r, s'', calls) := run_testing (k x) s' in
      (r, s'', c :: calls)
  end.

End TestingRepository.

(** ** More of the sample deployment *)
Module SampleMore.

(** The sample store without the attempts of users other than the
    candidate, and with other questions. *)
Definition store_of_candidate (now : datetime) : Store :=
  {| testings := testings (Sample.store now);
     vacancies := vacancies (Sample.store now);
     attempts :=
       [ Sample.attempt 50%N 1%N 20%N 5 (Sample.t0 + Sample.day 2);
         Sample.attempt 52%N 1%N 20%N 5 Sample.t0;
         Sample.attempt 53%N 1%N 21%N 5 (Sample.t0 - Sample.day 9) ];
     practical_questions := [];
     theoretical_questions := [ Sample.theoretical 36%N 20%N ];
     clock := now;
     next_id := 70%N |}.

Definition run_testing {R : Type} (p : TestingProg R) (s : Store)
  : (exn + R) * Store * list TestingCall :=
  run_testing Sample.before Sample.search_match p s.

End SampleMore.

(** * Properties *)

Section Properties.

Variable before : Store -> OrderBy -> Attempt.t -> Attempt.t -> bool.
Variable search_match : Store -> string -> Attempt.t -> bool.

Local Abbreviation exec := (run before search_match).
Local Abbreviation life := (lifecycle before search_match).

(** ** The guard *)

Lemma guard_run (R : Type) (p : Permission) (m : TestingApplicationService -> Prog R)
    (self : TestingApplicationService) :
  permission_filter p (state_filter ACTIVE m) self =
  match guard p self with
  | None => m self
  | Some e => Raise e
  end.
Proof.
  unfold permission_filter, state_filter, guard.
  destruct (in_dec Permission_eq_dec p _); [| reflexivity].
  destruct (UserState_eq_dec _ ACTIVE); reflexivity.
Qed.

Lemma guard_allowed (p : Permission) (self : TestingApplicationService) :
  allowed p self <-> guard p self = None.
Proof.
  unfold allowed, guard. split.
  - intros [Hp Hs].
    destruct (in_dec Permission_eq_dec p _); [| contradiction].
    destruct (UserState_eq_dec _ ACTIVE); [reflexivity | contradiction].
  - destruct (in_dec Permission_eq_dec p _); [| discriminate].
    destruct (UserState_eq_dec _ ACTIVE); [auto | discriminate].
Qed.

Lemma guard_pass (R : Type) (p : Permission) (m : TestingApplicationService -> Prog R)
    (self : TestingApplicationService) :
  allowed p self -> permission_filter p (state_filter ACTIVE m) self = m self.
Proof.
  intros Ha. apply guard_allowed in Ha. now rewrite guard_run, Ha.
Qed.

(** ** The lifecycle methods run to the decision table *)

Ltac run_checks :=
  rewrite guard_run; unfold checks_table, testing_row, vacancy_row, failed;
  destruct (guard _ _); [reflexivity |];
  cbn; destruct (find _ (testings _)) as [testing |]; [| reflexivity];
  cbn; destruct (find _ (vacancies _)) as [vacancy |]; [| reflexivity];
  cbn; destruct (VacancyState_ne _ _); [reflexivity |];
  cbn; destruct (earliest _) as [first_attempt |]; [| reflexivity];
  cbn; destruct (add_days _ _) as [e | deadline]; [reflexivity |];
  cbn; destruct (_ >? _); reflexivity.

Lemma start_practical_testing_run self id s :
  exec (start_practical_testing self id) s =
  checks_table START_TESTING self id s
    (start_tail s (map PracticalQuestion_model_validate (practical_questions_of s id))
       (practical_question_repo_get_all id)).
Proof. unfold start_practical_testing. run_checks. Qed.

Lemma start_theoretical_testing_run self id s :
  exec (start_theoretical_testing self id) s =
  checks_table START_TESTING self id s
    (start_tail s (map TheoreticalQuestion_model_validate (theoretical_questions_of s id))
       (theoretical_question_repo_get_all id)).
Proof. unfold start_theoretical_testing. run_checks. Qed.

Lemma complete_theoretical_testing_run self id data s :
  exec (complete_theoretical_testing self id data) s =
  checks_table COMPLETE_TESTING self id s
    (complete_tail self id s (List.length (theoretical_questions_of s id))
       (theoretical_question_repo_get_all id)).
Proof. unfold complete_theoretical_testing. run_checks. Qed.

Lemma complete_practical_testing_run self id data s :
  exec (complete_practical_testing self id data) s =
  checks_table COMPLETE_TESTING self id s
    (complete_tail self id s (List.length (practical_questions_of s id))
       (practical_question_repo_get_all id)).
Proof. unfold complete_practical_testing. run_checks. Qed.

Lemma forget_checks_table (R : Type) p self id s (tail : Testing.t -> list Call -> Outcome R) :
  forget (checks_table p self id s tail) =
  checks_table p self id s (fun testing checks => forget (tail testing checks)).
Proof.
  unfold checks_table, failed.
  destruct (guard p self); [reflexivity |].
  destruct (testing_row s id); [| reflexivity].
  destruct (vacancy_row s _); [| reflexivity].
  destruct (VacancyState_ne _ _); [reflexivity |].
  destruct (earliest _); [| reflexivity].
  destruct (add_days _ _); [reflexivity |].
  destruct (_ >? _); reflexivity.
Qed.

Lemma lifecycle_run op self id s :
  life op self id s =
  checks_table (lifecycle_permission op) self id s (lifecycle_tail op self id s).
Proof.
  destruct op; cbn [lifecycle lifecycle_permission].
  - rewrite start_practical_testing_run. apply forget_checks_table.
  - rewrite start_theoretical_testing_run. apply forget_checks_table.
  - rewrite complete_theoretical_testing_run. apply forget_checks_table.
  - rewrite complete_practical_testing_run. apply forget_checks_table.
Qed.

Lemma lifecycle_tail_passes op self id s testing checks :
  raised (lifecycle_tail op self id s testing checks) = None.
Proof. destruct op; reflexivity. Qed.

Lemma VacancyState_ne_true (a b : VacancyState) : VacancyState_ne a b = true <-> a <> b.
Proof.
  unfold VacancyState_ne. destruct (VacancyState_eq_dec a b); split; congruence.
Qed.

Lemma VacancyState_ne_refl (a : VacancyState) : VacancyState_ne a a = false.
Proof.
  unfold VacancyState_ne. destruct (VacancyState_eq_dec a a); congruence.
Qed.

(** ** The first attempt *)

Lemma earliest_None (l : list Attempt.t) : earliest l = None <-> l = [].
Proof.
  destruct l as [| a l]; cbn; [tauto |].
  split; [| discriminate].
  destruct (earliest l) as [b |]; [| discriminate].
  destruct (_ <=? _); discriminate.
Qed.

Lemma earliest_least (l : list Attempt.t) (b : Attempt.t) :
  earliest l = Some b ->
  In b l /\ forall a, In a l -> Attempt.created_at b <= Attempt.created_at a.
Proof.
  revert b. induction l as [| x l IH]; cbn; [discriminate |].
  intros b. destruct (earliest l) as [m |] eqn:E.
  - destruct (IH m eq_refl) as [Hin Hle].
    destruct (Attempt.created_at x <=? Attempt.created_at m) eqn:C;
      intros [= <-].
    + apply Z.leb_le in C. split; [now left |].
      intros a [<- | Ha]; [lia |]. specialize (Hle a Ha). lia.
    + apply Z.leb_gt in C. split; [now right |].
      intros a [<- | Ha]; [lia | now apply Hle].
  - apply earliest_None in E. subst l. intros [= <-].
    split; [now left |]. intros a [<- | []]. lia.
Qed.

(** The creation time of the first attempt is the least creation time. *)
Lemma earliest_created_at (l : list Attempt.t) (a0 : Attempt.t) :
  In a0 l ->
  (forall a, In a l -> Attempt.created_at a0 <= Attempt.created_at a) ->
  exists b, earliest l = Some b /\ Attempt.created_at b = Attempt.created_at a0.
Proof.
  intros Hin Hmin. destruct (earliest l) as [b |] eqn:E.
  - exists b. split; [reflexivity |].
    destruct (earliest_least l b E) as [Hb Hle].
    specialize (Hle a0 Hin). specialize (Hmin b Hb). lia.
  - apply earliest_None in E. subst l. destruct Hin.
Qed.

Lemma add_days_representable (t0 d : Z) :
  deadline_representable t0 d -> add_days t0 d = inr (t0 + d * us_per_day).
Proof.
  intros [Hd Hr]. unfold add_days, timedelta, datetime_add, datetime_in_range.
  destruct (Z.leb_spec (Z.abs d) 999999999); [| lia].
  destruct (Z.leb_spec 0 (t0 + d * us_per_day)); [| lia].
  destruct (Z.ltb_spec (t0 + d * us_per_day) (MAXORDINAL * us_per_day)); [| lia].
  reflexivity.
Qed.

Lemma add_days_unrepresentable (t0 d : Z) :
  ~ deadline_representable t0 d -> add_days t0 d = inl OverflowError.
Proof.
  intros Hn. unfold deadline_representable in Hn.
  unfold add_days, timedelta, datetime_add, datetime_in_range.
  destruct (Z.leb_spec (Z.abs d) 999999999); [| reflexivity].
  destruct (Z.leb_spec 0 (t0 + d * us_per_day)); [| reflexivity].
  destruct (Z.ltb_spec (t0 + d * us_per_day) (MAXORDINAL * us_per_day)); [lia | reflexivity].
Qed.

(** What the table gives once the guard and the vacancy gate have passed. *)
Lemma lifecycle_after_gate op self id s testing vacancy :
  allowed (lifecycle_permission op) self ->
  testing_row s id = Some testing ->
  vacancy_row s (Testing.vacancy_id testing) = Some vacancy ->
  Vacancy.state vacancy = OPENED ->
  let user := BaseUser.id (current_user self) in
  let gate := [repo_get id; vacancy_repo_get (Testing.vacancy_id testing)] in
  life op self id s =
  match earliest (attempts_of user id (attempts s)) with
  | None => lifecycle_tail op self id s testing (gate ++ [attempt_repo_get_first user id])
  | Some first_attempt =>
      let checks := gate ++ [attempt_repo_get_first user id; datetime_now] in
      match add_days (Attempt.created_at first_attempt) (Vacancy.test_time vacancy) with
      | inl e => failed e s checks
      | inr deadline =>
          if clock s >? deadline
          then failed (BadRequest TimeExpired) s checks
          else lifecycle_tail op self id s testing checks
      end
  end.
Proof.
  intros Ha Ht Hv Ho. rewrite lifecycle_run. unfold checks_table.
  apply guard_allowed in Ha. rewrite Ha, Ht, Hv, Ho, VacancyState_ne_refl.
  reflexivity.
Qed.

(** ** The deadline policy *)

(** C1 (as amended). Deadline policy.  Once the guard and the vacancy gate
    have passed, a lifecycle call of a user with no prior attempt at the
    testing passes, whatever the clock reads.  When the user's earliest
    attempt was created at [t0] and the vacancy allots [d] days, and
    [t0 + d days] is a datetime (at most 999999999 days in magnitude, the sum
    within the range of datetime), the call fails with BadRequest (time
    expired) exactly when the clock reads more than [t0 + d days], and passes
    otherwise.  When [t0 + d days] is not a datetime, the call ends with
    OverflowError: it neither passes nor fails with BadRequest. *)
Theorem deadline_policy op self id s testing vacancy :
  allowed (lifecycle_permission op) self ->
  testing_row s id = Some testing ->
  vacancy_row s (Testing.vacancy_id testing) = Some vacancy ->
  Vacancy.state vacancy = OPENED ->
  let mine := attempts_of (BaseUser.id (current_user self)) id (attempts s) in
  (mine = [] -> raised (life op self id s) = None)
  /\ (forall first,
        In first mine ->
        (forall a, In a mine -> Attempt.created_at first <= Attempt.created_at a) ->
        let t0 := Attempt.created_at first in
        let d := Vacancy.test_time vacancy in
        (deadline_representable t0 d ->
         (raised (life op self id s) = Some (BadRequest TimeExpired)
          <-> clock s > t0 + d * us_per_day)
         /\ (clock s <= t0 + d * us_per_day -> raised (life op self id s) = None))
        /\ (~ deadline_representable t0 d ->
            raised (life op self id s) = Some OverflowError)).
Proof.
  intros Ha Ht Hv Ho mine.
  rewrite (lifecycle_after_gate op self id s testing vacancy Ha Ht Hv Ho).
  fold mine. split.
  - intros E. rewrite E. cbn [earliest]. apply lifecycle_tail_passes.
  - intros first Hin Hmin t0 d.
    destruct (earliest_created_at mine first Hin Hmin) as [b [Eb Hb]].
    rewrite Eb, Hb. fold t0 d. split.
    + intros Hrep. rewrite (add_days_representable t0 d Hrep).
      destruct (Z.gtb_spec (clock s) (t0 + d * us_per_day)) as [Hgt | Hle].
      * split; [split; [lia | reflexivity] | lia].
      * rewrite lifecycle_tail_passes.
        split; [split; [discriminate | lia] | reflexivity].
    + intros Hrep. now rewrite (add_days_unrepresentable t0 d Hrep).
Qed.

(** C10 (as amended). The comparison with the deadline is strict.  With the
    user's earliest attempt created at [t0] and [d] days allotted, and
    [t0 + d days] a datetime, a lifecycle call made when the clock reads
    exactly [t0 + d days], or earlier, passes; a call that fails was made
    strictly later and fails with BadRequest (time expired). *)
Theorem deadline_is_strict op self id s testing vacancy first :
  allowed (lifecycle_permission op) self ->
  testing_row s id = Some testing ->
  vacancy_row s (Testing.vacancy_id testing) = Some vacancy ->
  Vacancy.state vacancy = OPENED ->
  let mine := attempts_of (BaseUser.id (current_user self)) id (attempts s) in
  let t0 := Attempt.created_at first in
  let d := Vacancy.test_time vacancy in
  In first mine ->
  (forall a, In a mine -> t0 <= Attempt.created_at a) ->
  deadline_representable t0 d ->
  (clock s = t0 + d * us_per_day -> raised (life op self id s) = None)
  /\ (clock s < t0 + d * us_per_day -> raised (life op self id s) = None)
  /\ (forall e, raised (life op self id s) = Some e ->
        e = BadRequest TimeExpired /\ t0 + d * us_per_day < clock s).
Proof.
  intros Ha Ht Hv Ho mine t0 d Hin Hmin Hrep.
  rewrite (lifecycle_after_gate op self id s testing vacancy Ha Ht Hv Ho).
  fold mine.
  destruct (earliest_created_at mine first Hin Hmin) as [b [Eb Hb]].
  rewrite Eb, Hb. fold t0 d.
  rewrite (add_days_representable t0 d Hrep).
  destruct (Z.gtb_spec (clock s) (t0 + d * us_per_day)) as [Hgt | Hle].
  - split; [lia | split; [lia |]].
    intros e [= <-]. split; [reflexivity | lia].
  - rewrite lifecycle_tail_passes.
    split; [reflexivity | split; [reflexivity | discriminate]].
Qed.

(** ** The order of the validations *)

(** C2. Order of the validations of a lifecycle call.  After the guard: an
    unknown testing id fails NotFound with only the testing lookup awaited
    (no vacancy or deadline call ran); a testing whose vacancy is absent
    fails NotFound; a vacancy that is not OPENED fails BadRequest with only
    the two lookups awaited (the first attempt and the clock were not
    read). *)
Theorem lifecycle_validation_order op self id s :
  allowed (lifecycle_permission op) self ->
  (testing_row s id = None ->
   life op self id s = failed (NotFound (TestingNotFound id)) s [repo_get id])
  /\ (forall testing,
        testing_row s id = Some testing ->
        vacancy_row s (Testing.vacancy_id testing) = None ->
        life op self id s =
          failed (NotFound (VacancyNotFound (Testing.vacancy_id testing))) s
            [repo_get id; vacancy_repo_get (Testing.vacancy_id testing)])
  /\ (forall testing vacancy,
        testing_row s id = Some testing ->
        vacancy_row s (Testing.vacancy_id testing) = Some vacancy ->
        Vacancy.state vacancy <> OPENED ->
        life op self id s =
          failed (BadRequest (VacancyNotOpened (Testing.vacancy_id testing))) s
            [repo_get id; vacancy_repo_get (Testing.vacancy_id testing)]).
Proof.
  intros Ha. apply guard_allowed in Ha.
  rewrite lifecycle_run. unfold checks_table. rewrite Ha.
  split; [| split].
  - intros Ht. now rewrite Ht.
  - intros testing Ht Hv. now rewrite Ht, Hv.
  - intros testing vacancy Ht Hv Hs. rewrite Ht, Hv.
    apply VacancyState_ne_true in Hs. now rewrite Hs.
Qed.

(** ** Completion *)

Ltac table_cases :=
  unfold checks_table, failed;
  destruct (guard _ _);
  [| destruct (testing_row _ _) eqn:Etesting;
     [ destruct (vacancy_row _ _);
       [ destruct (VacancyState_ne _ _);
         [| destruct (earliest _);
            [ destruct (add_days _ _); [| destruct (_ >? _)] |] ] |] |] ].

Lemma returned_arguments_raise (attempt : AttemptTest.t) (testing : Testing.t) :
  returned_arguments attempt testing = inl (multiple_values "test").
Proof. reflexivity. Qed.




(** ** Frame *)






(** ** The theoretical and practical variants *)

Ltac alike_traces := repeat (constructor; cbn; auto).

(** C9. The theoretical and the practical variant of start, and of complete,
    agree on every store and for every caller: they raise the same exception
    or both succeed, they await the same calls of the testing, vacancy and
    deadline checks, and their whole traces are alike call by call, the read
    of the questions going to the repository of the variant's kind. *)
Theorem variants_agree self id s :
  (let p := exec (start_practical_testing self id) s in
   let t := exec (start_theoretical_testing self id) s in
   raised t = raised p
   /\ final t = final p
   /\ filter is_check (trace t) = filter is_check (trace p)
   /\ Forall2 alike (trace t) (trace p))
  /\ (forall dt dp,
        let p := exec (complete_practical_testing self id dp) s in
        let t := exec (complete_theoretical_testing self id dt) s in
        raised t = raised p
        /\ filter is_check (trace t) = filter is_check (trace p)
        /\ Forall2 alike (trace t) (trace p)
        /\ (raised p <> None -> final t = s /\ final p = s)).
Proof.
  split.
  - cbv zeta. rewrite start_practical_testing_run, start_theoretical_testing_run.
    table_cases; cbn; repeat split; alike_traces.
  - intros dt dp. cbv zeta.
    rewrite complete_practical_testing_run, complete_theoretical_testing_run.
    table_cases; cbn; repeat split; try congruence; alike_traces.
Qed.

(** ** The listings *)

Lemma min3_per_page (per_page : Z) : min3 per_page 40 2147483646 = Z.min per_page 40.
Proof. unfold min3. lia. Qed.

(** The one query a listing of the caller's attempts awaits. *)
Lemma get_test_attempts_run self testing_id page per_page order_by s :
  allowed GET_SELF_TEST_RESULTS self -> 1 <= page -> 1 <= per_page ->
  let limit := Z.min per_page 40 in
  let offset := Z.min ((page - 1) * limit) 2147483646 in
  let user := Some (BaseUser.id (current_user self)) in
  exec (get_test_attempts self testing_id page per_page order_by) s =
  {| result := inr (map AttemptTest.model_validate
                      (attempt_get_all before s limit offset order_by user testing_id));
     final := s;
     trace := [attempt_repo_get_all limit offset order_by user testing_id] |}.
Proof.
  intros Ha Hp Hn. cbv zeta. unfold get_test_attempts. rewrite guard_pass by assumption.
  destruct (Z.ltb_spec page 1); [lia |].
  destruct (Z.ltb_spec per_page 1); [lia |].
  cbv zeta. rewrite min3_per_page. reflexivity.
Qed.

Lemma get_user_attempts_run self page per_page order_by query user_id s :
  allowed GET_USER_TEST_RESULTS self -> 1 <= page -> 1 <= per_page ->
  let limit := Z.min per_page 40 in
  let offset := Z.min ((page - 1) * limit) 2147483646 in
  exec (get_user_attempts self page per_page order_by query user_id) s =
  match query with
  | Some q =>
      if String.eqb q EmptyString
      then {| result := inr (map AttemptTest.model_validate
                               (attempt_get_all before s limit offset order_by
                                  user_id None));
              final := s;
              trace := [attempt_repo_get_all limit offset order_by user_id None] |}
      else {| result := inr (map AttemptTest.model_validate
                               (attempt_search before search_match s limit offset
                                  order_by q user_id));
              final := s;
              trace := [attempt_repo_search limit offset order_by q user_id] |}
  | None =>
      {| result := inr (map AttemptTest.model_validate
                          (attempt_get_all before s limit offset order_by
                             user_id None));
         final := s;
         trace := [attempt_repo_get_all limit offset order_by user_id None] |}
  end.
Proof.
  intros Ha Hp Hn. cbv zeta. unfold get_user_attempts. rewrite guard_pass by assumption.
  destruct (Z.ltb_spec page 1); [lia |].
  destruct (Z.ltb_spec per_page 1); [lia |].
  cbv zeta. rewrite min3_per_page.
  destruct query as [q |]; cbn [truthy]; [| reflexivity].
  destruct (String.eqb q EmptyString); reflexivity.
Qed.

(** C4. A page below 1 makes both listings fail NotFound, whatever the page
    size, so the page is checked first; with a page of at least 1, a page
    size below 1 makes both fail BadRequest.  No query is awaited. *)
Theorem listing_validation page per_page order_by s :
  (forall self testing_id,
     allowed GET_SELF_TEST_RESULTS self ->
     (page < 1 ->
      exec (get_test_attempts self testing_id page per_page order_by) s =
        failed (NotFound PageNotFound) s [])
     /\ (1 <= page -> per_page < 1 ->
         exec (get_test_attempts self testing_id page per_page order_by) s =
           failed (BadRequest InvalidPerPage) s []))
  /\ (forall self query user_id,
        allowed GET_USER_TEST_RESULTS self ->
        (page < 1 ->
         exec (get_user_attempts self page per_page order_by query user_id) s =
           failed (NotFound PageNotFound) s [])
        /\ (1 <= page -> per_page < 1 ->
            exec (get_user_attempts self page per_page order_by query user_id) s =
              failed (BadRequest InvalidPerPage) s [])).
Proof.
  split.
  - intros self testing_id Ha. unfold get_test_attempts.
    rewrite guard_pass by assumption. split.
    + intros Hp. destruct (Z.ltb_spec page 1); [reflexivity | lia].
    + intros Hp Hn. destruct (Z.ltb_spec page 1); [lia |].
      destruct (Z.ltb_spec per_page 1); [reflexivity | lia].
  - intros self query user_id Ha. unfold get_user_attempts.
    rewrite guard_pass by assumption. split.
    + intros Hp. destruct (Z.ltb_spec page 1); [reflexivity | lia].
    + intros Hp Hn. destruct (Z.ltb_spec page 1); [lia |].
      destruct (Z.ltb_spec per_page 1); [reflexivity | lia].
Qed.

(** The query a listing awaits for a valid page and page size. *)
Lemma get_test_attempts_query self testing_id page per_page order_by s :
  allowed GET_SELF_TEST_RESULTS self -> 1 <= page -> 1 <= per_page ->
  exists q,
    trace (exec (get_test_attempts self testing_id page per_page order_by) s) = [q]
    /\ query_limit q = Some (Z.min per_page 40)
    /\ query_offset q = Some (Z.min ((page - 1) * Z.min per_page 40) 2147483646).
Proof.
  intros Ha Hp Hn.
  rewrite (get_test_attempts_run self testing_id page per_page order_by s Ha Hp Hn).
  eexists. split; [reflexivity |]. split; reflexivity.
Qed.

Lemma get_user_attempts_query self page per_page order_by query user_id s :
  allowed GET_USER_TEST_RESULTS self -> 1 <= page -> 1 <= per_page ->
  exists q,
    trace (exec (get_user_attempts self page per_page order_by query user_id) s) = [q]
    /\ query_limit q = Some (Z.min per_page 40)
    /\ query_offset q = Some (Z.min ((page - 1) * Z.min per_page 40) 2147483646).
Proof.
  intros Ha Hp Hn.
  rewrite (get_user_attempts_run self page per_page order_by query user_id s Ha Hp Hn).
  destruct query as [q |]; [destruct (String.eqb q EmptyString) |];
    (eexists; split; [reflexivity |]; split; reflexivity).
Qed.

(** C5. With a page size above 40 (and a page of at least 1), each listing
    awaits exactly one query, whose limit is 40 and whose offset is
    [(page - 1) * 40] clamped to 2147483646.  For any page size of at least 1
    the limit is the page size clamped to 40, and the offset is computed from
    that clamped limit and clamped to 2147483646. *)
Theorem listing_page_clamp page per_page order_by s :
  1 <= page ->
  (forall self testing_id,
     allowed GET_SELF_TEST_RESULTS self ->
     (40 < per_page ->
      exists q,
        trace (exec (get_test_attempts self testing_id page per_page order_by) s) = [q]
        /\ query_limit q = Some 40
        /\ query_offset q = Some (Z.min ((page - 1) * 40) 2147483646))
     /\ (1 <= per_page ->
         exists q,
           trace (exec (get_test_attempts self testing_id page per_page order_by) s) = [q]
           /\ query_limit q = Some (Z.min per_page 40)
           /\ query_offset q = Some (Z.min ((page - 1) * Z.min per_page 40) 2147483646)))
  /\ (forall self query user_id,
        allowed GET_USER_TEST_RESULTS self ->
        (40 < per_page ->
         exists q,
           trace (exec (get_user_attempts self page per_page order_by query user_id) s) = [q]
           /\ query_limit q = Some 40
           /\ query_offset q = Some (Z.min ((page - 1) * 40) 2147483646))
        /\ (1 <= per_page ->
            exists q,
              trace (exec (get_user_attempts self page per_page order_by query user_id) s)
                = [q]
              /\ query_limit q = Some (Z.min per_page 40)
              /\ query_offset q = Some (Z.min ((page - 1) * Z.min per_page 40) 2147483646))).
Proof.
  intros Hp. split.
  - intros self testing_id Ha. split.
    + intros Hbig.
      destruct (get_test_attempts_query self testing_id page per_page order_by s Ha Hp)
        as [q Hq]; [lia |].
      exists q. now replace (Z.min per_page 40) with 40 in Hq by lia.
    + now apply get_test_attempts_query.
  - intros self query user_id Ha. split.
    + intros Hbig.
      destruct (get_user_attempts_query self page per_page order_by query user_id s Ha Hp)
        as [q Hq]; [lia |].
      exists q. now replace (Z.min per_page 40) with 40 in Hq by lia.
    + now apply get_user_attempts_query.
Qed.

(** ** Whose attempts are listed *)

Lemma insert_sorted_In (s0 : Store) (o : OrderBy) (a x : Attempt.t) (l : list Attempt.t) :
  In x (insert_sorted before s0 o a l) -> x = a \/ In x l.
Proof.
  induction l as [| b l IH]; cbn.
  - intros [<- | []]. now left.
  - destruct (before s0 o a b); cbn.
    + intros [<- | H]; [now left | now right].
    + intros [<- | H]; [right; now left |].
      destruct (IH H) as [-> | H']; [now left | right; now right].
Qed.

(** Ordering adds no row. *)
Lemma order_attempts_In (s0 : Store) (o : OrderBy) (l : list Attempt.t) (a : Attempt.t) :
  In a (order_attempts before s0 o l) -> In a l.
Proof.
  unfold order_attempts.
  induction l as [| b l IH]; cbn; [trivial |].
  intros H. apply insert_sorted_In in H.
  destruct H as [-> | H]; [now left | right; now apply IH].
Qed.

Lemma In_page_of (A : Type) (limit offset : Z) (l : list A) (x : A) :
  In x (page_of limit offset l) -> In x l.
Proof.
  unfold page_of. intros H.
  rewrite <- (firstn_skipn (Z.to_nat offset) l). apply in_or_app. right.
  rewrite <- (firstn_skipn (Z.to_nat limit) (skipn (Z.to_nat offset) l)).
  apply in_or_app. now left.
Qed.

Lemma filter_all (A : Type) (f : A -> bool) (l : list A) :
  (forall x, f x = true) -> filter f l = l.
Proof.
  intros Hf. induction l as [| x l IH]; cbn; [reflexivity |].
  now rewrite Hf, IH.
Qed.

(** C7. Every query of getTestAttempts is restricted to the caller's id, so
    every attempt it returns is the caller's.  The outcome of getUserAttempts does not depend on who
    the caller is, and without a userId it lists the attempts of all users:
    the page is taken from the whole table (from all its rows that match the
    search query, when there is one), ordered. *)
Theorem attempts_scope page per_page order_by s :
  (forall self testing_id,
     let o := exec (get_test_attempts self testing_id page per_page order_by) s in
     (forall q, In q (trace o) -> query_user q = Some (BaseUser.id (current_user self)))
     /\ (forall rows row,
           result o = inr rows -> In row rows ->
           AttemptTest.user_id row = BaseUser.id (current_user self)))
  /\ (forall self1 self2 query user_id,
        allowed GET_USER_TEST_RESULTS self1 ->
        allowed GET_USER_TEST_RESULTS self2 ->
        exec (get_user_attempts self1 page per_page order_by query user_id) s =
        exec (get_user_attempts self2 page per_page order_by query user_id) s)
  /\ (forall self query,
        allowed GET_USER_TEST_RESULTS self ->
        1 <= page -> 1 <= per_page ->
        let limit := Z.min per_page 40 in
        let offset := Z.min ((page - 1) * limit) 2147483646 in
        let rows :=
          match query with
          | Some q => if truthy query then filter (search_match s q) (attempts s)
                      else attempts s
          | None => attempts s
          end in
        result (exec (get_user_attempts self page per_page order_by query None) s) =
        inr (map AttemptTest.model_validate
               (page_of limit offset (order_attempts before s order_by rows)))).
Proof.
  split; [| split].
  - intros self testing_id o. subst o. unfold get_test_attempts.
    rewrite guard_run. destruct (guard _ _); [split; [intros q [] | discriminate] |].
    destruct (page <? 1); [split; [intros q [] | discriminate] |].
    destruct (per_page <? 1); [split; [intros q [] | discriminate] |].
    cbn. split.
    + intros q [<- | []]. reflexivity.
    + intros rows row [= <-] Hin.
      apply in_map_iff in Hin. destruct Hin as [a [<- Ha]].
      unfold attempt_get_all in Ha.
      apply In_page_of, order_attempts_In, filter_In in Ha. destruct Ha as [_ Ha].
      apply andb_prop in Ha. destruct Ha as [Ha _].
      cbn in Ha. apply N.eqb_eq in Ha. exact Ha.
  - intros self1 self2 query user_id H1 H2. unfold get_user_attempts.
    now rewrite !guard_pass by assumption.
  - intros self query Ha Hp Hn limit offset rows.
    rewrite (get_user_attempts_run self page per_page order_by query None s Ha Hp Hn).
    assert (attempt_get_all before s limit offset order_by None None
            = page_of limit offset (order_attempts before s order_by (attempts s))) as E.
    { unfold attempt_get_all. now rewrite filter_all. }
    fold limit. fold offset. subst rows.
    destruct query as [q |]; [| now rewrite E].
    cbn [truthy]. destruct (String.eqb q EmptyString); cbn [negb]; [now rewrite E |].
    cbn [result]. unfold attempt_search. do 4 f_equal.
    apply filter_ext. intros a. cbn. apply andb_true_r.
Qed.

(** ** The getters of testings *)

(** C8. After the guard, getTestings returns the repository's list for any
    vacancy id, awaiting that one query and no lookup of the vacancy: it
    never fails BadRequest.  For a testing whose vacancy is not OPENED,
    getTesting fails BadRequest while getTestings of that vacancy returns a
    list that holds the testing. *)
Theorem get_testings_unrestricted self s :
  allowed GET_TESTING self ->
  (forall vacancy_id,
     exec (get_testings self vacancy_id) s =
     {| result := inr (map Testing_model_validate
                         (filter (fun t => N.eqb (Testing.vacancy_id t) vacancy_id)
                            (testings s)));
        final := s;
        trace := [repo_get_all vacancy_id] |})
  /\ (forall testing_id testing vacancy,
        testing_row s testing_id = Some testing ->
        vacancy_row s (Testing.vacancy_id testing) = Some vacancy ->
        Vacancy.state vacancy <> OPENED ->
        raised (exec (get_testing self testing_id) s) =
          Some (BadRequest (VacancyNotOpened (Testing.vacancy_id testing)))
        /\ exists l,
             result (exec (get_testings self (Testing.vacancy_id testing)) s) = inr l
             /\ In testing l).
Proof.
  intros Ha. split.
  - intros vacancy_id. unfold get_testings. now rewrite guard_pass by assumption.
  - intros testing_id testing vacancy Ht Hv Hs. split.
    + unfold get_testing. rewrite guard_pass by assumption.
      unfold testing_row in Ht. unfold vacancy_row in Hv.
      cbn. rewrite Ht. cbn. rewrite Hv. cbn.
      apply VacancyState_ne_true in Hs. now rewrite Hs.
    + unfold get_testings. rewrite guard_pass by assumption. cbn.
      eexists. split; [reflexivity |].
      unfold Testing_model_validate. rewrite map_id.
      apply filter_In. split.
      * unfold testing_row in Ht. now apply find_some in Ht.
      * apply N.eqb_refl.
Qed.

End Properties.

(** * Further properties of the code *)

(** ** Permission (src/models/permission.py) *)

(** X1. No two members of Permission share a value: looking up the value of
    a member gives the member back, and a lookup that finds a member was
    given that member's value. *)
Theorem Permission_value_round_trip (p : Permission) (value : string) :
  Permission_of_value (Permission_value p) = Some p
  /\ (Permission_of_value value = Some p <-> Permission_value p = value).
Proof.
  assert (Permission_of_value (Permission_value p) = Some p) as Hrt
    by (destruct p; reflexivity).
  split; [exact Hrt |]. split.
  - intros H. unfold Permission_of_value in H. apply find_some in H.
    destruct H as [_ H]. now apply String.eqb_eq in H.
  - intros <-. exact Hrt.
Qed.

(** X2. The value of every member is its name, except for
    GET_SELF_TEST_RESULTS, whose value is GET_TEST_RESULTS: a lookup by value
    of a member's name finds that member, except for that one name, which
    is the value of no member. *)
Theorem Permission_name_is_value_but_one (p : Permission) :
  (Permission_value p = Permission_name p <-> p <> GET_SELF_TEST_RESULTS)
  /\ Permission_of_name (Permission_name p) = Some p
  /\ Permission_of_value (Permission_name p) =
     (if Permission_eq_dec p GET_SELF_TEST_RESULTS then None else Some p)
  /\ Permission_value GET_SELF_TEST_RESULTS = "GET_TEST_RESULTS"%string.
Proof.
  repeat split; destruct p; cbn; try reflexivity; try discriminate; try congruence.
Qed.

(** ** The vacancy schemas (src/models/schemas/vacancy.py) *)

Lemma len_nonneg (value : string) : 0 <= len value.
Proof. unfold len. lia. Qed.

Lemma is_falsy_len (value : string) : is_falsy value = true <-> len value = 0.
Proof.
  unfold is_falsy, len. destruct value as [| c value]; cbn.
  - split; reflexivity.
  - split; [discriminate | lia].
Qed.

Lemma is_falsy_false (value : string) : is_falsy value = false <-> 1 <= len value.
Proof.
  unfold is_falsy, len. destruct value as [| c value]; cbn [String.eqb String.length].
  - split; [discriminate | cbn; lia].
  - split; [lia | reflexivity].
Qed.

Lemma create_title_valid (value : string) :
  VacancyCreate.title_must_be_valid value = inr value <-> 1 <= len value <= 255.
Proof.
  unfold VacancyCreate.title_must_be_valid.
  destruct (is_falsy value) eqn:E.
  - apply is_falsy_len in E. split; [discriminate | lia].
  - apply is_falsy_false in E.
    destruct (Z.gtb_spec (len value) 255); split; try discriminate; try lia; reflexivity.
Qed.

Lemma create_content_valid (value : string) :
  VacancyCreate.content_must_be_valid value = inr value <-> 1 <= len value <= 32000.
Proof.
  unfold VacancyCreate.content_must_be_valid.
  destruct (is_falsy value) eqn:E.
  - apply is_falsy_len in E. split; [discriminate | lia].
  - apply is_falsy_false in E.
    destruct (Z.gtb_spec (len value) 32000); split; try discriminate; try lia; reflexivity.
Qed.

Lemma create_title_cases (value : string) :
  VacancyCreate.title_must_be_valid value =
  if len value =? 0 then inl title_empty
  else if len value >? 255 then inl title_too_long else inr value.
Proof.
  unfold VacancyCreate.title_must_be_valid.
  destruct (is_falsy value) eqn:E.
  - apply is_falsy_len in E. now rewrite E.
  - apply is_falsy_false in E. destruct (Z.eqb_spec (len value) 0); [lia | reflexivity].
Qed.

Lemma create_content_cases (value : string) :
  VacancyCreate.content_must_be_valid value =
  if len value =? 0 then inl content_empty
  else if len value >? 32000 then inl content_too_long else inr value.
Proof.
  unfold VacancyCreate.content_must_be_valid.
  destruct (is_falsy value) eqn:E.
  - apply is_falsy_len in E. now rewrite E.
  - apply is_falsy_false in E. destruct (Z.eqb_spec (len value) 0); [lia | reflexivity].
Qed.

Lemma create_title_inr (value x : string) :
  VacancyCreate.title_must_be_valid value = inr x -> x = value /\ 1 <= len value <= 255.
Proof.
  intros H. assert (x = value) as ->.
  { unfold VacancyCreate.title_must_be_valid in H.
    destruct (is_falsy value); [discriminate |].
    destruct (len value >? 255); [discriminate | congruence]. }
  split; [reflexivity | now apply create_title_valid].
Qed.

Lemma create_content_inr (value x : string) :
  VacancyCreate.content_must_be_valid value = inr x -> x = value /\ 1 <= len value <= 32000.
Proof.
  intros H. assert (x = value) as ->.
  { unfold VacancyCreate.content_must_be_valid in H.
    destruct (is_falsy value); [discriminate |].
    destruct (len value >? 32000); [discriminate | congruence]. }
  split; [reflexivity | now apply create_content_valid].
Qed.

Lemma VacancyCreate_built (title content : string) (state : VacancyState)
    (v : VacancyCreate.t) :
  VacancyCreate.model_validate title content state = inr v ->
  v = {| VacancyCreate.title := title;
         VacancyCreate.content := content;
         VacancyCreate.state := state |}
  /\ 1 <= len title <= 255 /\ 1 <= len content <= 32000.
Proof.
  intros H. unfold VacancyCreate.model_validate in H.
  destruct (VacancyCreate.title_must_be_valid title) as [e | t] eqn:Et;
    destruct (VacancyCreate.content_must_be_valid content) as [e' | c] eqn:Ec;
    try discriminate H.
  apply create_title_inr in Et. apply create_content_inr in Ec.
  destruct Et as [-> Ht]. destruct Ec as [-> Hc].
  injection H as <-. auto.
Qed.

Lemma VacancyCreate_accepts_iff (title content : string) (state : VacancyState) :
  (exists v, VacancyCreate.model_validate title content state = inr v)
  <-> 1 <= len title <= 255 /\ 1 <= len content <= 32000.
Proof.
  split.
  - intros [v H]. now apply VacancyCreate_built in H.
  - intros [Ht Hc]. apply create_title_valid in Ht. apply create_content_valid in Hc.
    unfold VacancyCreate.model_validate. rewrite Ht, Hc. eauto.
Qed.

(** X3. A VacancyCreate is built exactly when the title has 1 to 255
    characters and the content 1 to 32000, and it then carries the title,
    the content and the state it was given, unchanged. *)
Theorem VacancyCreate_accepts (title content : string) (state : VacancyState) :
  ((exists v, VacancyCreate.model_validate title content state = inr v)
   <-> 1 <= len title <= 255 /\ 1 <= len content <= 32000)
  /\ (forall v,
        VacancyCreate.model_validate title content state = inr v ->
        v = {| VacancyCreate.title := title;
               VacancyCreate.content := content;
               VacancyCreate.state := state |}).
Proof.
  split; [apply VacancyCreate_accepts_iff |].
  intros v H. now apply VacancyCreate_built in H.
Qed.

(** X4. When a VacancyCreate is refused, the errors reported are exactly
    the constraints that are broken, the title's before the content's: the
    empty title or else the title of more than 255 characters, then the
    empty content or else the content of more than 32000 characters; so
    there is at least one error, at most one per field, and none twice. *)
Theorem VacancyCreate_errors (title content : string) (state : VacancyState)
    (errors : list ValueError) :
  VacancyCreate.model_validate title content state = inl errors ->
  errors =
    (if len title =? 0 then [title_empty]
     else if len title >? 255 then [title_too_long] else [])
    ++ (if len content =? 0 then [content_empty]
        else if len content >? 32000 then [content_too_long] else [])
  /\ (In title_empty errors <-> len title = 0)
  /\ (In title_too_long errors <-> 255 < len title)
  /\ (In content_empty errors <-> len content = 0)
  /\ (In content_too_long errors <-> 32000 < len content)
  /\ (1 <= List.length errors <= 2)%nat
  /\ NoDup errors.
Proof.
  unfold VacancyCreate.model_validate.
  rewrite create_title_cases, create_content_cases.
  pose proof (len_nonneg title). pose proof (len_nonneg content).
  destruct (Z.eqb_spec (len title) 0); destruct (Z.eqb_spec (len content) 0);
    destruct (Z.gtb_spec (len title) 255); destruct (Z.gtb_spec (len content) 32000);
    cbn; intros Heq; try discriminate Heq; injection Heq as <-; cbn.
  all: split; [reflexivity |].
  all: repeat match goal with |- _ /\ _ => split end.
  all: try lia.
  all: try (repeat constructor; cbn; intuition discriminate).
  all: try (split; intros Hin; [| try lia; auto]).
  all: try (repeat (destruct Hin as [Hin | Hin]; try discriminate Hin);
            first [lia | contradiction]).
Qed.

Lemma update_title_cases (value : string) :
  VacancyUpdate.title_must_be_valid value =
  if len value >? 255 then inl title_too_long else inr value.
Proof.
  unfold VacancyUpdate.title_must_be_valid.
  destruct (is_falsy value) eqn:E; cbn [negb andb]; [| reflexivity].
  apply is_falsy_len in E. rewrite E. reflexivity.
Qed.

Lemma update_content_cases (value : string) :
  VacancyUpdate.content_must_be_valid value =
  if len value >? 32000 then inl content_too_long else inr value.
Proof.
  unfold VacancyUpdate.content_must_be_valid.
  destruct (is_falsy value) eqn:E; cbn [negb andb]; [| reflexivity].
  apply is_falsy_len in E. rewrite E. reflexivity.
Qed.

(** The length allowed to a field that may be absent. *)
Definition within (limit : Z) (field : option string) : Prop :=
  forall value, field = Some value -> len value <= limit.

Lemma update_title_validated (field : option string) :
  VacancyUpdate.validated VacancyUpdate.title_must_be_valid field =
  match field with
  | Some value => if len value >? 255 then inl title_too_long else inr field
  | None => inr None
  end.
Proof.
  destruct field as [value |]; cbn; [| reflexivity].
  rewrite update_title_cases. now destruct (len value >? 255).
Qed.

Lemma update_content_validated (field : option string) :
  VacancyUpdate.validated VacancyUpdate.content_must_be_valid field =
  match field with
  | Some value => if len value >? 32000 then inl content_too_long else inr field
  | None => inr None
  end.
Proof.
  destruct field as [value |]; cbn; [| reflexivity].
  rewrite update_content_cases. now destruct (len value >? 32000).
Qed.

Lemma VacancyUpdate_accepts_iff (title content : option string)
    (state : option VacancyState) :
  (exists v, VacancyUpdate.model_validate title content state = inr v)
  <-> within 255 title /\ within 32000 content.
Proof.
  unfold VacancyUpdate.model_validate, within.
  rewrite update_title_validated, update_content_validated.
  destruct title as [t |]; destruct content as [c |];
    try destruct (Z.gtb_spec (len t) 255); try destruct (Z.gtb_spec (len c) 32000); cbn.
  all: split.
  all: try (intros [v Hv]; discriminate Hv).
  all: try (intros _; eexists; reflexivity).
  all: try (intros _; split; intros value Hv; try discriminate Hv; injection Hv as <-; lia).
  all: intros [Ht Hc]; try specialize (Ht _ eq_refl); try specialize (Hc _ eq_refl); lia.
Qed.

(** X5. A VacancyUpdate is built exactly when the title, if given, has at
    most 255 characters and the content, if given, at most 32000; it then
    carries the fields it was given, unchanged, the absent ones staying
    absent. *)
Theorem VacancyUpdate_accepts (title content : option string) (state : option VacancyState) :
  ((exists v, VacancyUpdate.model_validate title content state = inr v)
   <-> within 255 title /\ within 32000 content)
  /\ (forall v,
        VacancyUpdate.model_validate title content state = inr v ->
        v = {| VacancyUpdate.title := title;
               VacancyUpdate.content := content;
               VacancyUpdate.state := state |}).
Proof.
  split; [apply VacancyUpdate_accepts_iff |].
  unfold VacancyUpdate.model_validate.
  rewrite update_title_validated, update_content_validated.
  destruct title as [t |]; destruct content as [c |];
    try destruct (len t >? 255); try destruct (len c >? 32000); cbn.
  all: intros v Hv; try discriminate Hv; now injection Hv as <-.
Qed.

(** X6. Whatever VacancyCreate accepts, VacancyUpdate accepts as an update
    of all three fields; the converse fails on empty strings: an update to
    the empty title or to the empty content is accepted, while no
    VacancyCreate is built with either. *)
Theorem VacancyUpdate_weaker_than_create (title content : string) (state : VacancyState) :
  ((exists v, VacancyCreate.model_validate title content state = inr v) ->
   exists u, VacancyUpdate.model_validate (Some title) (Some content) (Some state) = inr u)
  /\ (exists u, VacancyUpdate.model_validate (Some EmptyString) None None = inr u)
  /\ (exists u, VacancyUpdate.model_validate None (Some EmptyString) None = inr u)
  /\ (forall v, VacancyCreate.model_validate EmptyString content state <> inr v)
  /\ (forall v, VacancyCreate.model_validate title EmptyString state <> inr v).
Proof.
  split; [| split; [| split; [| split]]].
  - intros Hc. apply (proj1 (VacancyCreate_accepts_iff title content state)) in Hc.
    apply (proj2 (VacancyUpdate_accepts_iff (Some title) (Some content) (Some state))).
    unfold within. split; intros value [= <-]; lia.
  - eexists. reflexivity.
  - eexists. reflexivity.
  - intros v H.
    assert (1 <= len EmptyString <= 255 /\ 1 <= len content <= 32000) as [Hl _]
      by (apply (VacancyCreate_accepts_iff EmptyString content state); eauto).
    cbn in Hl. lia.
  - intros v H.
    assert (1 <= len title <= 255 /\ 1 <= len EmptyString <= 32000) as [_ Hl]
      by (apply (VacancyCreate_accepts_iff title EmptyString state); eauto).
    cbn in Hl. lia.
Qed.

Section Coverage.

Variable before : Store -> OrderBy -> Attempt.t -> Attempt.t -> bool.
Variable search_match : Store -> string -> Attempt.t -> bool.

Local Abbreviation exec := (run before search_match).
Local Abbreviation life := (lifecycle before search_match).
Local Abbreviation exec_testing := (run_testing before search_match).

(** ** The listings, for any input *)

Lemma clamp_bounds (page per_page : Z) :
  1 <= page -> 1 <= per_page ->
  1 <= min3 per_page 40 2147483646 <= 40
  /\ 0 <= Z.min ((page - 1) * min3 per_page 40 2147483646) 2147483646 <= 2147483646.
Proof.
  intros Hp Hn. unfold min3. split; [lia |].
  assert (0 <= (page - 1) * Z.min (Z.min per_page 40) 2147483646) by nia. lia.
Qed.

(** X7. Whatever the page and the page size, and whoever calls, a query
    that a listing awaits has a limit between 1 and 40 and an offset between
    0 and 2147483646. *)
Theorem listing_query_bounds self testing_id page per_page order_by query user_id s q :
  In q (trace (exec (get_test_attempts self testing_id page per_page order_by) s))
  \/ In q (trace (exec (get_user_attempts self page per_page order_by query user_id) s)) ->
  exists limit offset,
    query_limit q = Some limit /\ query_offset q = Some offset
    /\ 1 <= limit <= 40 /\ 0 <= offset <= 2147483646.
Proof.
  unfold get_test_attempts, get_user_attempts. rewrite !guard_run.
  destruct (guard _ self); destruct (guard _ self); cbn; try tauto.
  all: destruct (Z.ltb_spec page 1); cbn; try tauto.
  all: destruct (Z.ltb_spec per_page 1); cbn; try tauto.
  all: destruct (clamp_bounds page per_page) as [Hl Ho]; try lia.
  all: try (destruct (truthy query); cbn).
  all: intros Hq; repeat (destruct Hq as [Hq | Hq]; try contradiction); subst q.
  all: do 2 eexists; repeat split; try reflexivity; lia.
Qed.

(** X8. A listing never returns more than 40 attempts, nor more than the
    page size asked for. *)
Theorem listing_size_bound self testing_id page per_page order_by query user_id s rows :
  result (exec (get_test_attempts self testing_id page per_page order_by) s) = inr rows
  \/ result (exec (get_user_attempts self page per_page order_by query user_id) s) = inr rows ->
  (List.length rows <= 40)%nat /\ Z.of_nat (List.length rows) <= per_page.
Proof.
  unfold get_test_attempts, get_user_attempts. rewrite !guard_run.
  assert (forall (offset : Z) (l : list Attempt.t), 1 <= per_page ->
            (List.length (map AttemptTest.model_validate
                            (page_of (min3 per_page 40 2147483646) offset l)) <= 40)%nat
            /\ Z.of_nat (List.length (map AttemptTest.model_validate
                                        (page_of (min3 per_page 40 2147483646) offset l)))
               <= per_page) as Hlen.
  { intros offset l Hn. rewrite length_map. unfold page_of.
    pose proof (firstn_le_length (Z.to_nat (min3 per_page 40 2147483646))
                  (skipn (Z.to_nat offset) l)) as Hf.
    unfold min3 in *. lia. }
  destruct (guard _ self); destruct (guard _ self); cbn.
  all: destruct (Z.ltb_spec page 1); cbn.
  all: destruct (Z.ltb_spec per_page 1); cbn.
  all: try (destruct (truthy query); cbn).
  all: intros [Hr | Hr]; try discriminate Hr; injection Hr as <-.
  all: now apply Hlen.
Qed.

(** X9. An empty search string is no search: getUserAttempts with the empty
    query has the outcome it has with no query, and awaits no search; with a
    query that is not empty, a permitted caller's valid page awaits the
    search and no plain listing. *)
Theorem empty_query_is_no_query self page per_page order_by user_id s :
  exec (get_user_attempts self page per_page order_by (Some EmptyString) user_id) s
  = exec (get_user_attempts self page per_page order_by None user_id) s
  /\ (forall c,
        In c (trace (exec (get_user_attempts self page per_page order_by None user_id) s)) ->
        exists limit offset, c = attempt_repo_get_all limit offset order_by user_id None)
  /\ (forall q c,
        q <> EmptyString ->
        In c (trace (exec (get_user_attempts self page per_page order_by (Some q) user_id) s)) ->
        exists limit offset, c = attempt_repo_search limit offset order_by q user_id).
Proof.
  split; [reflexivity |]. split.
  - intros c. unfold get_user_attempts. rewrite guard_run.
    destruct (guard _ self); cbn; [tauto |].
    destruct (page <? 1); cbn; [tauto |].
    destruct (per_page <? 1); cbn; [tauto |].
    intros [<- | []]. eauto.
  - intros q c Hq. unfold get_user_attempts. rewrite guard_run.
    destruct (guard _ self); cbn; [tauto |].
    destruct (page <? 1); cbn; [tauto |].
    destruct (per_page <? 1); cbn; [tauto |].
    destruct (String.eqb_spec q EmptyString); [contradiction |]. cbn.
    intros [<- | []]. eauto.
Qed.

(** X10. Once the offset is clamped, the pages are one and the same: two
    pages whose offsets [(page - 1) * limit] both reach 2147483646 have the
    same outcome, in both listings. *)
Theorem clamped_pages_coincide self testing_id page page' per_page order_by query user_id s :
  1 <= per_page ->
  2147483646 <= (page - 1) * Z.min per_page 40 ->
  2147483646 <= (page' - 1) * Z.min per_page 40 ->
  exec (get_test_attempts self testing_id page per_page order_by) s
  = exec (get_test_attempts self testing_id page' per_page order_by) s
  /\ exec (get_user_attempts self page per_page order_by query user_id) s
     = exec (get_user_attempts self page' per_page order_by query user_id) s.
Proof.
  intros Hn Hp Hp'.
  assert (1 <= page) by nia. assert (1 <= page') by nia.
  unfold get_test_attempts, get_user_attempts. rewrite !guard_run.
  destruct (guard _ self); destruct (guard _ self); cbn.
  all: destruct (Z.ltb_spec page 1); [lia |].
  all: destruct (Z.ltb_spec page' 1); [lia |].
  all: split; try reflexivity.
  all: destruct (per_page <? 1); try reflexivity.
  all: cbv zeta; rewrite min3_per_page.
  all: replace (Z.min ((page - 1) * Z.min per_page 40) 2147483646) with 2147483646 by lia.
  all: replace (Z.min ((page' - 1) * Z.min per_page 40) 2147483646) with 2147483646 by lia.
  all: reflexivity.
Qed.

Lemma firstn_then_next (A : Type) (n j : nat) (l : list A) :
  firstn n l ++ firstn j (skipn n l) = firstn (n + j) l.
Proof.
  revert l. induction n as [| n IH]; intros l; cbn; [reflexivity |].
  destruct l as [| x l]; cbn.
  - now rewrite firstn_nil.
  - now rewrite IH.
Qed.

Lemma page_then_next (A : Type) (limit offset : Z) (l : list A) :
  0 <= limit -> 0 <= offset ->
  page_of limit offset l ++ page_of limit (offset + limit) l
  = page_of (2 * limit) offset l.
Proof.
  intros Hl Ho. unfold page_of.
  replace (Z.to_nat (offset + limit)) with (Z.to_nat limit + Z.to_nat offset)%nat by lia.
  rewrite <- skipn_skipn, firstn_then_next. f_equal. lia.
Qed.

(** X11. Below the clamp, the pages of the caller's attempts tile the
    ordered rows: with a page size [n] of at most 40, page [p] followed by
    page [p + 1] is the slice of [2 * n] rows that starts where page [p]
    starts, with no row lost and none repeated. *)
Theorem pages_tile self testing_id page per_page order_by s rows next :
  1 <= page -> 1 <= per_page <= 40 -> page * per_page <= 2147483646 ->
  result (exec (get_test_attempts self testing_id page per_page order_by) s) = inr rows ->
  result (exec (get_test_attempts self testing_id (page + 1) per_page order_by) s) = inr next ->
  rows ++ next =
  map AttemptTest.model_validate
    (attempt_get_all before s (2 * per_page) ((page - 1) * per_page) order_by
       (Some (BaseUser.id (current_user self))) testing_id).
Proof.
  intros Hp Hn Hclamp. unfold get_test_attempts. rewrite !guard_run.
  destruct (guard _ self); [discriminate |].
  destruct (Z.ltb_spec page 1); [lia |].
  destruct (Z.ltb_spec (page + 1) 1); [lia |].
  destruct (Z.ltb_spec per_page 1); [lia |].
  cbv zeta. rewrite min3_per_page.
  replace (Z.min per_page 40) with per_page by lia.
  replace (Z.min ((page - 1) * per_page) 2147483646) with ((page - 1) * per_page) by nia.
  replace (Z.min ((page + 1 - 1) * per_page) 2147483646)
    with ((page - 1) * per_page + per_page) by nia.
  cbn. intros [= <-] [= <-]. rewrite <- map_app. f_equal.
  unfold attempt_get_all. apply page_then_next; nia.
Qed.

(** X12. The listings and the getters of testings only read: whatever they
    return or raise, the store is left as it was and no write is awaited. *)
Theorem reads_leave_the_store self testing_id id page per_page order_by query user_id s :
  (final (exec (get_test_attempts self testing_id page per_page order_by) s) = s
   /\ filter is_write
        (trace (exec (get_test_attempts self testing_id page per_page order_by) s)) = [])
  /\ (final (exec (get_user_attempts self page per_page order_by query user_id) s) = s
      /\ filter is_write
           (trace (exec (get_user_attempts self page per_page order_by query user_id) s)) = [])
  /\ (final (exec (get_testing self id) s) = s
      /\ filter is_write (trace (exec (get_testing self id) s)) = [])
  /\ (final (exec (get_testings self id) s) = s
      /\ filter is_write (trace (exec (get_testings self id) s)) = []).
Proof.
  unfold get_test_attempts, get_user_attempts, get_testing, get_testings.
  rewrite !guard_run.
  repeat split.
  all: destruct (guard _ self); cbn; try reflexivity.
  all: try (destruct (page <? 1); cbn; try reflexivity;
            destruct (per_page <? 1); cbn; try reflexivity;
            try (destruct (truthy query); reflexivity)).
  all: destruct (find _ (testings s)) as [testing |]; cbn; try reflexivity.
  all: destruct (find _ (vacancies s)) as [vacancy |]; cbn; try reflexivity.
  all: destruct (VacancyState_ne _ _); reflexivity.
Qed.

(** ** The lifecycle, beyond the deadline policy *)

Ltac by_table :=
  unfold checks_table, failed;
  destruct (guard _ _);
  [| destruct (testing_row _ _);
     [ destruct (vacancy_row _ _);
       [ destruct (VacancyState_ne _ _);
         [| destruct (earliest _);
            [ destruct (add_days _ _); [| destruct (_ >? _)] |] ] |] |] ].

(** X13. When the user has a first attempt and its creation time plus the
    allotted days is not a datetime, every lifecycle call that passes the
    guard and the vacancy gate ends with OverflowError, after the clock was
    read and before any question is read; the store is left as it was. *)
Theorem unrepresentable_deadline_overflows op self id s testing vacancy first :
  allowed (lifecycle_permission op) self ->
  testing_row s id = Some testing ->
  vacancy_row s (Testing.vacancy_id testing) = Some vacancy ->
  Vacancy.state vacancy = OPENED ->
  let mine := attempts_of (BaseUser.id (current_user self)) id (attempts s) in
  In first mine ->
  (forall a, In a mine -> Attempt.created_at first <= Attempt.created_at a) ->
  ~ deadline_representable (Attempt.created_at first) (Vacancy.test_time vacancy) ->
  life op self id s =
  failed OverflowError s
    [repo_get id; vacancy_repo_get (Testing.vacancy_id testing);
     attempt_repo_get_first (BaseUser.id (current_user self)) id; datetime_now].
Proof.
  intros Ha Ht Hv Ho mine Hin Hmin Hrep.
  rewrite (lifecycle_after_gate before search_match op self id s testing vacancy Ha Ht Hv Ho).
  fold mine.
  destruct (earliest_created_at mine first Hin Hmin) as [b [Eb Hb]].
  rewrite Eb, Hb. now rewrite (add_days_unrepresentable _ _ Hrep).
Qed.

(** X14. The outcome of the checks of a lifecycle call depends on the
    attempts table only through the caller's own attempts at this testing:
    two stores with the same testings, vacancies and clock, in which the
    caller has the same attempts at the testing, raise the same exception
    or both pass, after the same calls of the checks, whatever the other
    users' attempts and the questions are. *)
Theorem deadline_is_per_user_and_testing op self id s1 s2 :
  testings s1 = testings s2 ->
  vacancies s1 = vacancies s2 ->
  clock s1 = clock s2 ->
  attempts_of (BaseUser.id (current_user self)) id (attempts s1)
  = attempts_of (BaseUser.id (current_user self)) id (attempts s2) ->
  raised (life op self id s1) = raised (life op self id s2)
  /\ filter is_check (trace (life op self id s1))
     = filter is_check (trace (life op self id s2)).
Proof.
  intros Ht Hv Hc Ha. rewrite !lifecycle_run.
  unfold checks_table, testing_row, vacancy_row. rewrite Ht, Hv, Hc, Ha.
  unfold failed.
  destruct (guard _ _); [split; reflexivity |].
  destruct (find _ (testings s2)); [| split; reflexivity].
  destruct (find _ (vacancies s2)); [| split; reflexivity].
  destruct (VacancyState_ne _ _); [split; reflexivity |].
  destruct (earliest _); [destruct (add_days _ _); [| destruct (_ >? _)] |].
  all: try (split; reflexivity).
  all: rewrite !lifecycle_tail_passes; split; [reflexivity |].
  all: destruct op; reflexivity.
Qed.

(** X15. What complete counts is what start hands out: on the same store,
    the [total_answers] of the attempt returned by a complete call is the
    number of questions the start call of the same kind returns, and its
    [correct_answers] is 0. *)
Theorem total_answers_counts_started_questions self id s :
  (forall data questions attempt,
     result (exec (start_theoretical_testing self id) s) = inr questions ->
     result (exec (complete_theoretical_testing self id data) s) = inr attempt ->
     AttemptTest.total_answers attempt = Z.of_nat (List.length questions)
     /\ AttemptTest.correct_answers attempt = 0)
  /\ (forall data questions attempt,
        result (exec (start_practical_testing self id) s) = inr questions ->
        result (exec (complete_practical_testing self id data) s) = inr attempt ->
        AttemptTest.total_answers attempt = Z.of_nat (List.length questions)
        /\ AttemptTest.correct_answers attempt = 0).
Proof.
  split; intros data questions attempt.
  - rewrite start_theoretical_testing_run, complete_theoretical_testing_run.
    unfold checks_table, failed.
    destruct (guard START_TESTING self); [discriminate |].
    destruct (guard COMPLETE_TESTING self); [destruct (testing_row s id) as [t |];
      [destruct (vacancy_row s _); [destruct (VacancyState_ne _ _);
        [| destruct (earliest _); [destruct (add_days _ _); [| destruct (_ >? _)] |]] |] |];
      intros _ H; discriminate H |].
    destruct (testing_row s id) as [t |]; [| discriminate].
    destruct (vacancy_row s _); [| discriminate].
    destruct (VacancyState_ne _ _); [discriminate |].
    destruct (earliest _); [destruct (add_days _ _); [discriminate | destruct (_ >? _)] |];
      try discriminate.
    all: cbn; intros [= <-] [= <-]; cbn; now rewrite length_map.
  - rewrite start_practical_testing_run, complete_practical_testing_run.
    unfold checks_table, failed.
    destruct (guard START_TESTING self); [discriminate |].
    destruct (guard COMPLETE_TESTING self); [destruct (testing_row s id) as [t |];
      [destruct (vacancy_row s _); [destruct (VacancyState_ne _ _);
        [| destruct (earliest _); [destruct (add_days _ _); [| destruct (_ >? _)] |]] |] |];
      intros _ H; discriminate H |].
    destruct (testing_row s id) as [t |]; [| discriminate].
    destruct (vacancy_row s _); [| discriminate].
    destruct (VacancyState_ne _ _); [discriminate |].
    destruct (earliest _); [destruct (add_days _ _); [discriminate | destruct (_ >? _)] |];
      try discriminate.
    all: cbn; intros [= <-] [= <-]; cbn; now rewrite length_map.
Qed.

Lemma earliest_snoc (l : list Attempt.t) (a : Attempt.t) :
  earliest (l ++ [a]) =
  match earliest l with
  | None => Some a
  | Some b => if Attempt.created_at b <=? Attempt.created_at a then Some b else Some a
  end.
Proof.
  induction l as [| x l IH]; cbn; [reflexivity |].
  rewrite IH. destruct (earliest l) as [b |]; [| reflexivity].
  destruct (Z.leb_spec (Attempt.created_at b) (Attempt.created_at a));
    destruct (Z.leb_spec (Attempt.created_at x) (Attempt.created_at b));
    destruct (Z.leb_spec (Attempt.created_at x) (Attempt.created_at a));
    try reflexivity; try lia.
  all: destruct (Z.leb_spec (Attempt.created_at b) (Attempt.created_at a));
    try reflexivity; lia.
Qed.

(** What a successful complete call leaves, and what its success tells. *)
Lemma completed_store op self id s :
  is_start op = false ->
  raised (life op self id s) = None ->
  exists n testing vacancy,
    final (life op self id s) = add_attempt s (completed_row self id s n)
    /\ testing_row s id = Some testing
    /\ vacancy_row s (Testing.vacancy_id testing) = Some vacancy
    /\ Vacancy.state vacancy = OPENED.
Proof.
  intros Hs. rewrite lifecycle_run. unfold checks_table, failed.
  destruct (guard _ _); [discriminate |].
  destruct (testing_row s id) as [testing |]; [| discriminate].
  destruct (vacancy_row s _) as [vacancy |] eqn:Ev; [| discriminate].
  destruct (VacancyState_ne _ _) eqn:Es; [discriminate |].
  assert (Vacancy.state vacancy = OPENED) as Ho.
  { destruct (VacancyState_eq_dec (Vacancy.state vacancy) OPENED) as [E | N]; [exact E |].
    apply VacancyState_ne_true in N. congruence. }
  destruct (earliest _); [destruct (add_days _ _); [discriminate | destruct (_ >? _)] |];
    try discriminate; intros _.
  all: destruct op; try discriminate Hs; cbn.
  all: eexists; exists testing, vacancy; repeat split; try reflexivity; assumption.
Qed.

Lemma attempts_of_added (user id : UUID) (s : Store) (a : Attempt.t) :
  attempts_of user id (attempts (add_attempt s a)) =
  attempts_of user id (attempts s)
  ++ (if N.eqb (Attempt.user_id a) user && N.eqb (Attempt.testing_id a) id then [a] else []).
Proof. unfold attempts_of. cbn. now rewrite filter_app. Qed.

(** X16. The first completion starts the countdown: after a user without
    attempts at a testing completes it when the clock reads [t], a later
    lifecycle call of that user at that testing, when the clock reads
    [now], fails with BadRequest (time expired) exactly when [now] is after
    [t] plus the allotted days, and passes otherwise ([t] plus the allotted
    days being a datetime). *)
Theorem first_completion_starts_countdown completing op self id s vacancy testing now :
  is_start completing = false ->
  raised (life completing self id s) = None ->
  attempts_of (BaseUser.id (current_user self)) id (attempts s) = [] ->
  allowed (lifecycle_permission op) self ->
  testing_row s id = Some testing ->
  vacancy_row s (Testing.vacancy_id testing) = Some vacancy ->
  deadline_representable (clock s) (Vacancy.test_time vacancy) ->
  let later := set_clock now (final (life completing self id s)) in
  let deadline := clock s + Vacancy.test_time vacancy * us_per_day in
  (raised (life op self id later) = Some (BadRequest TimeExpired) <-> now > deadline)
  /\ (now <= deadline -> raised (life op self id later) = None).
Proof.
  intros Hs Hok Hnone Ha Ht Hv Hrep later deadline.
  destruct (completed_store completing self id s Hs Hok)
    as [n [testing' [vacancy' [Hfinal [Ht' [Hv' Ho]]]]]].
  rewrite Ht in Ht'. injection Ht' as <-. rewrite Hv in Hv'. injection Hv' as <-.
  assert (testing_row later id = Some testing) as Ht2 by (subst later; now rewrite Hfinal).
  assert (vacancy_row later (Testing.vacancy_id testing) = Some vacancy) as Hv2
    by (subst later; now rewrite Hfinal).
  rewrite (lifecycle_after_gate before search_match op self id later testing vacancy
             Ha Ht2 Hv2 Ho).
  assert (attempts later = attempts (add_attempt s (completed_row self id s n))) as Hatt
    by (subst later; now rewrite Hfinal).
  rewrite Hatt, attempts_of_added, Hnone. cbn [completed_row new_attempt Attempt.user_id
    Attempt.testing_id]. rewrite !N.eqb_refl. cbn [andb app earliest Attempt.created_at].
  change (Attempt.created_at (completed_row self id s n)) with (clock s).
  rewrite (add_days_representable _ _ Hrep).
  change (clock later) with now. fold deadline.
  destruct (Z.gtb_spec now deadline).
  - split; [split; [lia | reflexivity] | lia].
  - rewrite lifecycle_tail_passes. split; [split; [discriminate | lia] | reflexivity].
Qed.

(** X17. Completing never moves a deadline: a successful complete call
    leaves the first attempt of every user at every testing as it was,
    provided that attempt was not created after the clock's present time;
    only a user without attempts gets one, the row just created. *)
Theorem completion_keeps_first_attempts completing self id s user testing_id :
  is_start completing = false ->
  raised (life completing self id s) = None ->
  let after := attempts (final (life completing self id s)) in
  (forall first,
     earliest (attempts_of user testing_id (attempts s)) = Some first ->
     Attempt.created_at first <= clock s ->
     earliest (attempts_of user testing_id after) = Some first)
  /\ (earliest (attempts_of user testing_id (attempts s)) = None ->
      (user, testing_id) <> (BaseUser.id (current_user self), id) ->
      earliest (attempts_of user testing_id after) = None)
  /\ (earliest (attempts_of (BaseUser.id (current_user self)) id (attempts s)) = None ->
      exists row,
        earliest (attempts_of (BaseUser.id (current_user self)) id after) = Some row
        /\ Attempt.created_at row = clock s
        /\ after = attempts s ++ [row]).
Proof.
  intros Hs Hok after.
  destruct (completed_store completing self id s Hs Hok) as [n [t [v [Hfinal _]]]].
  subst after. rewrite Hfinal. split; [| split].
  - intros first Hfirst Hle. rewrite attempts_of_added.
    destruct (_ && _); [| now rewrite app_nil_r].
    rewrite earliest_snoc, Hfirst. cbn.
    destruct (Z.leb_spec (Attempt.created_at first) (clock s)); [reflexivity | lia].
  - intros Hnone Hother. rewrite attempts_of_added. cbn.
    destruct (N.eqb_spec (BaseUser.id (current_user self)) user);
      destruct (N.eqb_spec id testing_id); cbn; rewrite ?app_nil_r; try assumption.
    subst. now contradiction Hother.
  - intros Hnone. exists (completed_row self id s n).
    rewrite attempts_of_added. cbn. rewrite !N.eqb_refl. cbn.
    rewrite earliest_snoc, Hnone. repeat split.
Qed.

(** ** Getting, creating and deleting testings *)

(** X18. What getTesting returns is the row of the requested id, of a
    vacancy that exists and is OPENED, and getTestings of that vacancy lists
    it; it returns a row exactly when, the guard passed, such a row and
    vacancy exist. *)
Theorem get_testing_returns self id s :
  (forall testing,
     result (exec (get_testing self id) s) = inr testing ->
     Testing.id testing = id
     /\ In testing (testings s)
     /\ (exists vacancy,
           vacancy_row s (Testing.vacancy_id testing) = Some vacancy
           /\ Vacancy.id vacancy = Testing.vacancy_id testing
           /\ Vacancy.state vacancy = OPENED)
     /\ (exists listed,
           result (exec (get_testings self (Testing.vacancy_id testing)) s) = inr listed
           /\ In testing listed))
  /\ (allowed GET_TESTING self ->
      forall testing vacancy,
        testing_row s id = Some testing ->
        vacancy_row s (Testing.vacancy_id testing) = Some vacancy ->
        Vacancy.state vacancy = OPENED ->
        result (exec (get_testing self id) s) = inr testing).
Proof.
  split.
  - intros testing. unfold get_testing, get_testings. rewrite !guard_run.
    destruct (guard GET_TESTING self); [discriminate |]. cbn.
    destruct (find _ (testings s)) as [t |] eqn:Et; cbn; [| discriminate].
    destruct (find _ (vacancies s)) as [v |] eqn:Ev; cbn; [| discriminate].
    destruct (VacancyState_ne _ _) eqn:Es; cbn; [discriminate |].
    intros [= <-]. unfold Testing_model_validate.
    apply find_some in Et. destruct Et as [Hin Hid]. apply N.eqb_eq in Hid.
    split; [exact Hid |]. split; [exact Hin |]. split.
    + exists v. unfold vacancy_row. split; [exact Ev |].
      apply find_some in Ev. destruct Ev as [_ Hv]. apply N.eqb_eq in Hv.
      split; [exact Hv |].
      destruct (VacancyState_eq_dec (Vacancy.state v) OPENED) as [E | N]; [exact E |].
      apply VacancyState_ne_true in N. congruence.
    + eexists. split; [reflexivity |]. rewrite map_id.
      apply filter_In. split; [exact Hin | apply N.eqb_refl].
  - intros Ha testing vacancy Ht Hv Ho. unfold get_testing.
    rewrite guard_pass by assumption. unfold testing_row in Ht. unfold vacancy_row in Hv.
    cbn. rewrite Ht. cbn. rewrite Hv. cbn. rewrite Ho, VacancyState_ne_refl. reflexivity.
Qed.

(** X19. createTesting looks up the vacancy only: after the guard it fails
    NotFound when the vacancy is unknown and BadRequest when it is not
    OPENED, without a write; otherwise it awaits one creation, which appends
    one testing row of that vacancy to the store, and returns that row. *)
Theorem create_testing_outcome self vacancy_id data s :
  allowed CREATE_TESTING self ->
  (vacancy_row s vacancy_id = None ->
   exec_testing (create_testing self vacancy_id data) s =
     (inl (NotFound (VacancyNotFound vacancy_id)), s, [read (vacancy_repo_get vacancy_id)]))
  /\ (forall vacancy,
        vacancy_row s vacancy_id = Some vacancy ->
        Vacancy.state vacancy <> OPENED ->
        exec_testing (create_testing self vacancy_id data) s =
          (inl (BadRequest (VacancyNotOpened vacancy_id)), s,
           [read (vacancy_repo_get vacancy_id)]))
  /\ (forall vacancy,
        vacancy_row s vacancy_id = Some vacancy ->
        Vacancy.state vacancy = OPENED ->
        exists row,
          exec_testing (create_testing self vacancy_id data) s =
            (inr row, add_testing s row,
             [read (vacancy_repo_get vacancy_id); repo_create data vacancy_id])
          /\ Testing.vacancy_id row = vacancy_id
          /\ testings (add_testing s row) = testings s ++ [row]
          /\ attempts (add_testing s row) = attempts s).
Proof.
  intros Ha. apply guard_allowed in Ha.
  unfold create_testing, guarded, vacancy_row. rewrite Ha. cbn.
  split; [| split].
  - intros Hv. now rewrite Hv.
  - intros vacancy Hv Hs. rewrite Hv. apply VacancyState_ne_true in Hs. now rewrite Hs.
  - intros vacancy Hv Hs. rewrite Hv, Hs, VacancyState_ne_refl. cbn.
    eexists. repeat split.
Qed.

Lemma find_app_fresh (A : Type) (f : A -> bool) (l : list A) (x : A) :
  find f l = None -> f x = true -> find f (l ++ [x]) = Some x.
Proof.
  intros Hl Hx. induction l as [| y l IH]; cbn in *; [now rewrite Hx |].
  destruct (f y); [discriminate | auto].
Qed.

(** X20. A created testing is served: when the identity given to the new
    row is borne by no testing yet, the row createTesting returns is what
    getTesting then returns for its id, and getTestings of its vacancy lists
    it last, after the testings the vacancy had. *)
Theorem created_testing_is_served self reader vacancy_id data s row :
  fst (fst (exec_testing (create_testing self vacancy_id data) s)) = inr row ->
  testing_row s (next_id s) = None ->
  allowed GET_TESTING reader ->
  let after := snd (fst (exec_testing (create_testing self vacancy_id data) s)) in
  result (exec (get_testing reader (Testing.id row)) after) = inr row
  /\ (exists listed,
        result (exec (get_testings reader vacancy_id) s) = inr listed
        /\ result (exec (get_testings reader vacancy_id) after) = inr (listed ++ [row])).
Proof.
  unfold create_testing, guarded.
  destruct (guard CREATE_TESTING self); [discriminate |]. cbn.
  destruct (find _ (vacancies s)) as [v |] eqn:Ev; cbn; [| discriminate].
  destruct (VacancyState_ne _ _) eqn:Es; cbn; [discriminate |].
  intros [= <-] Hfresh Ha. unfold testing_row in Hfresh.
  unfold get_testing, get_testings. rewrite !guard_pass by assumption. cbn.
  split.
  - rewrite (find_app_fresh _ _ (testings s) (new_testing s vacancy_id) Hfresh)
      by apply N.eqb_refl.
    cbn. rewrite Ev. cbn. now rewrite Es.
  - eexists. split; [reflexivity |].
    rewrite filter_app, map_app. cbn. now rewrite N.eqb_refl.
Qed.

Lemma find_removed (id : UUID) (l : list Testing.t) :
  find (fun t => N.eqb (Testing.id t) id)
    (filter (fun t => negb (N.eqb (Testing.id t) id)) l) = None.
Proof.
  induction l as [| t l IH]; cbn; [reflexivity |].
  destruct (N.eqb (Testing.id t) id) eqn:E; cbn; [exact IH |]. now rewrite E.
Qed.

Lemma find_kept (id other : UUID) (l : list Testing.t) :
  other <> id ->
  find (fun t => N.eqb (Testing.id t) other)
    (filter (fun t => negb (N.eqb (Testing.id t) id)) l)
  = find (fun t => N.eqb (Testing.id t) other) l.
Proof.
  intros Hne. induction l as [| t l IH]; cbn; [reflexivity |].
  destruct (N.eqb_spec (Testing.id t) id) as [E | N]; cbn.
  - destruct (N.eqb_spec (Testing.id t) other); [congruence | exact IH].
  - destruct (N.eqb (Testing.id t) other); [reflexivity | exact IH].
Qed.

(** X21. deleteTesting validates like the lifecycle methods, without
    reading attempts or the clock: after the guard it fails NotFound for an
    unknown testing or an absent vacancy and BadRequest for a vacancy that is
    not OPENED, without a write; otherwise it awaits the two lookups and then
    one call that writes, the deletion of the testing, and returns. *)
Theorem delete_testing_outcome self id s :
  allowed DELETE_TESTING self ->
  (testing_row s id = None ->
   exec_testing (delete_testing self id) s =
     (inl (NotFound (TestingNotFound id)), s, [read (repo_get id)]))
  /\ (forall testing,
        testing_row s id = Some testing ->
        let gate := [read (repo_get id); read (vacancy_repo_get (Testing.vacancy_id testing))] in
        (vacancy_row s (Testing.vacancy_id testing) = None ->
         exec_testing (delete_testing self id) s =
           (inl (NotFound (VacancyNotFound (Testing.vacancy_id testing))), s, gate))
        /\ (forall vacancy,
              vacancy_row s (Testing.vacancy_id testing) = Some vacancy ->
              (Vacancy.state vacancy <> OPENED ->
               exec_testing (delete_testing self id) s =
                 (inl (BadRequest (VacancyNotOpened (Testing.vacancy_id testing))), s, gate))
              /\ (Vacancy.state vacancy = OPENED ->
                  exec_testing (delete_testing self id) s =
                    (inr tt, remove_testing s id, gate ++ [repo_delete id])))).
Proof.
  intros Ha. apply guard_allowed in Ha.
  unfold delete_testing, guarded, testing_row, vacancy_row. rewrite Ha. cbn.
  split.
  - intros Ht. now rewrite Ht.
  - intros testing Ht. rewrite Ht. cbn. split.
    + intros Hv. now rewrite Hv.
    + intros vacancy Hv. rewrite Hv. cbn. split.
      * intros Hs. apply VacancyState_ne_true in Hs. now rewrite Hs.
      * intros Hs. now rewrite Hs, VacancyState_ne_refl.
Qed.

(** X22. A deleted testing is gone for every method: after a successful
    deleteTesting, getTesting, the four lifecycle methods and a second
    deleteTesting of that id all fail NotFound for a permitted caller, while
    the testings of other ids are looked up as before. *)
Theorem deleted_testing_is_gone self id s :
  fst (fst (exec_testing (delete_testing self id) s)) = inr tt ->
  let after := snd (fst (exec_testing (delete_testing self id) s)) in
  (forall reader,
     allowed GET_TESTING reader ->
     raised (exec (get_testing reader id) after) = Some (NotFound (TestingNotFound id)))
  /\ (forall op candidate,
        allowed (lifecycle_permission op) candidate ->
        raised (life op candidate id after) = Some (NotFound (TestingNotFound id)))
  /\ fst (fst (exec_testing (delete_testing self id) after))
     = inl (NotFound (TestingNotFound id))
  /\ (forall other, other <> id -> testing_row after other = testing_row s other).
Proof.
  unfold delete_testing, guarded.
  destruct (guard DELETE_TESTING self) eqn:Eg; [discriminate |]. cbn.
  destruct (find _ (testings s)) as [t |] eqn:Et; cbn; [| discriminate].
  destruct (find _ (vacancies s)) as [v |] eqn:Ev; cbn; [| discriminate].
  destruct (VacancyState_ne _ _) eqn:Es; cbn; [discriminate |].
  intros _. split; [| split; [| split]].
  - intros reader Ha. unfold get_testing. rewrite guard_pass by assumption.
    cbn. now rewrite find_removed.
  - intros op candidate Ha. rewrite lifecycle_run. unfold checks_table, testing_row.
    apply guard_allowed in Ha. rewrite Ha. cbn. now rewrite find_removed.
  - now rewrite find_removed.
  - intros other Hne. unfold testing_row. cbn. now apply find_kept.
Qed.

End Coverage.

(** * The statements on the sample deployment *)

Import Sample.

Ltac ground := vm_compute; first [reflexivity | discriminate | tauto].

Ltac is_allowed := split; [cbn; tauto | reflexivity].

(** The scenario of the spec, up to the creation: a user without attempts
    starts testing 20 of the opened vacancy and receives its 5 theoretical
    questions, then completes it, and an attempt with 0 of 5 correct answers
    is created. *)
Example end_to_end_scenario :
  let s := store (t0 + day 1) in
  let started := Sample.run (start_theoretical_testing as_newcomer 20%N) s in
  let completed := Sample.run (complete_theoretical_testing as_newcomer 20%N []) (final started) in
  option_map (@List.length _) (match result started with inr l => Some l | inl _ => None end)
    = Some 5%nat
  /\ final started = s
  /\ attempts (final completed) =
     attempts s ++ [attempt 60%N 3%N 20%N 5 (t0 + day 1)].
Proof. vm_compute. repeat split. Qed.

(** The candidate, whose first attempt at testing 20 dates from [t0] with 5
    days allotted, passes 4 days later and fails 6 days later; a user with
    no attempt passes after 600 days; with 1000000000 days allotted the
    candidate's call ends with OverflowError. *)
Lemma deadline_policy_witness :
  raised (lifecycle Sample.before Sample.search_match
            StartPractical as_candidate 20%N (store (t0 + day 4))) = None
  /\ raised (lifecycle Sample.before Sample.search_match
               (CompleteTheoretical []) as_candidate 20%N (store (t0 + day 6)))
     = Some (BadRequest TimeExpired)
  /\ raised (lifecycle Sample.before Sample.search_match
               StartTheoretical as_newcomer 20%N (store (t0 + day 600))) = None
  /\ raised (lifecycle Sample.before Sample.search_match
               StartPractical as_candidate 20%N (store_with 1000000000 (t0 + day 1)))
     = Some OverflowError.
Proof.
  split; [| split; [| split]].
  - refine (proj2 (proj1 (proj2 (deadline_policy Sample.before Sample.search_match
                            StartPractical as_candidate 20%N (store (t0 + day 4))
                            {| Testing.id := 20%N; Testing.vacancy_id := 10%N |}
                            (vacancy 10%N OPENED 5) _ eq_refl eq_refl eq_refl)
                     (attempt 52%N 1%N 20%N 5 t0) _ _) _) _).
    + is_allowed.
    + right; left; reflexivity.
    + intros a [<- | [<- | []]]; ground.
    + repeat split; ground.
    + ground.
  - refine (proj2 (proj1 (proj1 (proj2 (deadline_policy Sample.before Sample.search_match
                            (CompleteTheoretical []) as_candidate 20%N (store (t0 + day 6))
                            {| Testing.id := 20%N; Testing.vacancy_id := 10%N |}
                            (vacancy 10%N OPENED 5) _ eq_refl eq_refl eq_refl)
                     (attempt 52%N 1%N 20%N 5 t0) _ _) _)) _).
    + is_allowed.
    + right; left; reflexivity.
    + intros a [<- | [<- | []]]; ground.
    + repeat split; ground.
    + ground.
  - refine (proj1 (deadline_policy Sample.before Sample.search_match
                     StartTheoretical as_newcomer 20%N (store (t0 + day 600))
                     {| Testing.id := 20%N; Testing.vacancy_id := 10%N |}
                     (vacancy 10%N OPENED 5) _ eq_refl eq_refl eq_refl) eq_refl).
    is_allowed.
  - refine (proj2 (proj2 (deadline_policy Sample.before Sample.search_match
                            StartPractical as_candidate 20%N
                            (store_with 1000000000 (t0 + day 1))
                            {| Testing.id := 20%N; Testing.vacancy_id := 10%N |}
                            (vacancy 10%N OPENED 1000000000) _ eq_refl eq_refl eq_refl)
                     (attempt 52%N 1%N 20%N 5 t0) _ _) _).
    + is_allowed.
    + right; left; reflexivity.
    + intros a [<- | [<- | []]]; ground.
    + intros [Habs _]. revert Habs. ground.
Defined.

(** At exactly [t0] plus 5 days the candidate still passes; the call made
    one microsecond later fails, and it is strictly later than the deadline. *)
Lemma deadline_is_strict_witness :
  raised (lifecycle Sample.before Sample.search_match
            (CompletePractical []) as_candidate 20%N (store (t0 + day 5))) = None
  /\ (BadRequest TimeExpired = BadRequest TimeExpired
      /\ t0 + 5 * us_per_day < t0 + day 5 + 1).
Proof.
  split.
  - refine (proj1 (deadline_is_strict Sample.before Sample.search_match
                     (CompletePractical []) as_candidate 20%N (store (t0 + day 5))
                     {| Testing.id := 20%N; Testing.vacancy_id := 10%N |}
                     (vacancy 10%N OPENED 5) (attempt 52%N 1%N 20%N 5 t0)
                     _ eq_refl eq_refl eq_refl _ _ _) _).
    + is_allowed.
    + right; left; reflexivity.
    + intros a [<- | [<- | []]]; ground.
    + repeat split; ground.
    + ground.
  - refine (proj2 (proj2 (deadline_is_strict Sample.before Sample.search_match
                     (CompletePractical []) as_candidate 20%N (store (t0 + day 5 + 1))
                     {| Testing.id := 20%N; Testing.vacancy_id := 10%N |}
                     (vacancy 10%N OPENED 5) (attempt 52%N 1%N 20%N 5 t0)
                     _ eq_refl eq_refl eq_refl _ _ _)) (BadRequest TimeExpired) eq_refl).
    + is_allowed.
    + right; left; reflexivity.
    + intros a [<- | [<- | []]]; ground.
    + repeat split; ground.
Defined.

(** Testing 77 does not exist, testing 22 points at no vacancy and testing
    21 belongs to a closed vacancy. *)
Lemma lifecycle_validation_order_witness :
  lifecycle Sample.before Sample.search_match StartPractical as_candidate 77%N
    (store t0) = failed (NotFound (TestingNotFound 77%N)) (store t0) [repo_get 77%N]
  /\ lifecycle Sample.before Sample.search_match (CompleteTheoretical []) as_candidate
       22%N (store t0)
     = failed (NotFound (VacancyNotFound 99%N)) (store t0)
         [repo_get 22%N; vacancy_repo_get 99%N]
  /\ lifecycle Sample.before Sample.search_match StartTheoretical as_candidate 21%N
       (store t0)
     = failed (BadRequest (VacancyNotOpened 11%N)) (store t0)
         [repo_get 21%N; vacancy_repo_get 11%N].
Proof.
  split; [| split].
  - refine (proj1 (lifecycle_validation_order Sample.before Sample.search_match
                     StartPractical as_candidate 77%N (store t0) _) eq_refl).
    is_allowed.
  - refine (proj1 (proj2 (lifecycle_validation_order Sample.before
                            Sample.search_match (CompleteTheoretical []) as_candidate 22%N
                            (store t0) _))
              {| Testing.id := 22%N; Testing.vacancy_id := 99%N |} eq_refl eq_refl).
    is_allowed.
  - refine (proj2 (proj2 (lifecycle_validation_order Sample.before
                            Sample.search_match StartTheoretical as_candidate 21%N
                            (store t0) _))
              {| Testing.id := 21%N; Testing.vacancy_id := 11%N |}
              (vacancy 11%N CLOSED 5) eq_refl eq_refl _).
    + is_allowed.
    + discriminate.
Defined.


(** Page 0 with page size 0 is NotFound, page 1 with page size 0 is
    BadRequest, for the candidate's own listing and for the listing of HR. *)
Lemma listing_validation_witness :
  Sample.run (get_test_attempts as_candidate None 0 0 by_created_at) (store t0)
    = failed (NotFound PageNotFound) (store t0) []
  /\ Sample.run (get_test_attempts as_candidate (Some 20%N) 1 0 by_title) (store t0)
     = failed (BadRequest InvalidPerPage) (store t0) []
  /\ Sample.run (get_user_attempts as_hr 0 0 by_created_at None None) (store t0)
     = failed (NotFound PageNotFound) (store t0) []
  /\ Sample.run (get_user_attempts as_hr 1 0 by_title (Some "x"%string) (Some 1%N)) (store t0)
     = failed (BadRequest InvalidPerPage) (store t0) [].
Proof.
  assert (allowed GET_SELF_TEST_RESULTS as_candidate) as Hc by is_allowed.
  assert (allowed GET_USER_TEST_RESULTS as_hr) as Hh by is_allowed.
  split; [| split; [| split]].
  - refine (proj1 (proj1 (listing_validation Sample.before Sample.search_match
                            0 0 by_created_at (store t0)) as_candidate None Hc) _).
    lia.
  - refine (proj2 (proj1 (listing_validation Sample.before Sample.search_match
                            1 0 by_title (store t0)) as_candidate (Some 20%N) Hc) _ _); lia.
  - refine (proj1 (proj2 (listing_validation Sample.before Sample.search_match
                            0 0 by_created_at (store t0)) as_hr None None Hh) _).
    lia.
  - refine (proj2 (proj2 (listing_validation Sample.before Sample.search_match
                            1 0 by_title (store t0)) as_hr (Some "x"%string) (Some 1%N) Hh)
              _ _); lia.
Defined.

(** Page 3 with page size 100 queries 40 rows from offset 80; on page
    1000000000 the offset is clamped. *)
Lemma listing_page_clamp_witness :
  (exists q,
     trace (Sample.run (get_test_attempts as_candidate None 3 100 by_created_at) (store t0))
       = [q]
     /\ query_limit q = Some 40 /\ query_offset q = Some 80)
  /\ (exists q,
        trace (Sample.run (get_user_attempts as_hr 1000000000 41 by_title None None)
                 (store t0)) = [q]
        /\ query_limit q = Some 40 /\ query_offset q = Some 2147483646).
Proof.
  assert (allowed GET_SELF_TEST_RESULTS as_candidate) as Hc by is_allowed.
  assert (allowed GET_USER_TEST_RESULTS as_hr) as Hh by is_allowed.
  split.
  - refine (proj1 (proj1 (listing_page_clamp Sample.before Sample.search_match
                            3 100 by_created_at (store t0) _) as_candidate None Hc) _); lia.
  - refine (proj1 (proj2 (listing_page_clamp Sample.before Sample.search_match
                            1000000000 41 by_title (store t0) _) as_hr None None Hh) _); lia.
Defined.


(** The candidate's listing holds only the candidate's attempts, while HR,
    who owns no attempt, is listed the attempts of users 1 and 4. *)
Lemma attempts_scope_witness :
  (forall rows row,
     result (Sample.run (get_test_attempts as_candidate None 1 10 by_created_at) (store t0))
       = inr rows ->
     In row rows -> AttemptTest.user_id row = 1%N)
  /\ Sample.run (get_user_attempts as_hr 1 10 by_created_at None None) (store t0)
     = Sample.run (get_user_attempts {| current_user :=
                                          {| BaseUser.id := 9%N;
                                             BaseUser.permissions := [GET_USER_TEST_RESULTS];
                                             BaseUser.state := ACTIVE |} |}
                     1 10 by_created_at None None) (store t0)
  /\ result (Sample.run (get_user_attempts as_hr 1 10 by_created_at None None) (store t0))
     = inr (map AttemptTest.model_validate
              [ attempt 51%N 4%N 20%N 5 (t0 - day 1);
                attempt 52%N 1%N 20%N 5 t0;
                attempt 50%N 1%N 20%N 5 (t0 + day 2) ]).
Proof.
  assert (allowed GET_USER_TEST_RESULTS as_hr) as Hh by is_allowed.
  split; [| split].
  - exact (proj2 (proj1 (attempts_scope Sample.before Sample.search_match
                           1 10 by_created_at (store t0)) as_candidate None)).
  - refine (proj1 (proj2 (attempts_scope Sample.before Sample.search_match
                            1 10 by_created_at (store t0))) as_hr _ None None Hh _).
    is_allowed.
  - refine (eq_trans
              (proj2 (proj2 (attempts_scope Sample.before Sample.search_match
                               1 10 by_created_at (store t0))) as_hr None Hh _ _) _).
    + lia.
    + lia.
    + reflexivity.
Defined.

(** Vacancy 11 is closed: its testing 21 cannot be fetched alone, but it is
    listed. *)
Lemma get_testings_unrestricted_witness :
  Sample.run (get_testings as_candidate 11%N) (store t0)
    = {| result := inr [ {| Testing.id := 21%N; Testing.vacancy_id := 11%N |} ];
         final := store t0;
         trace := [repo_get_all 11%N] |}
  /\ raised (Sample.run (get_testing as_candidate 21%N) (store t0))
     = Some (BadRequest (VacancyNotOpened 11%N)).
Proof.
  assert (allowed GET_TESTING as_candidate) as Hc by is_allowed.
  split.
  - exact (proj1 (get_testings_unrestricted Sample.before Sample.search_match
                    as_candidate (store t0) Hc) 11%N).
  - refine (proj1 (proj2 (get_testings_unrestricted Sample.before Sample.search_match
                            as_candidate (store t0) Hc)
                     21%N {| Testing.id := 21%N; Testing.vacancy_id := 11%N |}
                     (vacancy 11%N CLOSED 5) eq_refl eq_refl _)).
    discriminate.
Defined.

(** Past the deadline, both complete variants fail alike and leave the
    sample store as it was. *)
Lemma variants_agree_witness :
  final (Sample.run (complete_theoretical_testing as_candidate 20%N []) (store (t0 + day 6)))
    = store (t0 + day 6)
  /\ final (Sample.run (complete_practical_testing as_candidate 20%N []) (store (t0 + day 6)))
     = store (t0 + day 6).
Proof.
  refine (proj2 (proj2 (proj2 (proj2 (variants_agree Sample.before Sample.search_match
                                        as_candidate 20%N (store (t0 + day 6))) [] []))) _).
  discriminate.
Defined.

(** ** Deadlines that are not datetimes *)

(** With 1000000000 days allotted, [timedelta] overflows: a day after the
    first attempt the clock is not past [t0] plus the allotted days, yet the
    call does not pass: it ends with OverflowError. *)
Lemma deadline_policy_counterexample :
  let s := store_with 1000000000 (t0 + day 1) in
  testing_row s 20%N = Some {| Testing.id := 20%N; Testing.vacancy_id := 10%N |}
  /\ vacancy_row s 10%N = Some (vacancy 10%N OPENED 1000000000)
  /\ earliest (attempts_of 1%N 20%N (attempts s)) = Some (attempt 52%N 1%N 20%N 5 t0)
  /\ clock s <= t0 + 1000000000 * us_per_day
  /\ raised (lifecycle Sample.before Sample.search_match
               StartPractical as_candidate 20%N s) = Some OverflowError
  /\ raised (lifecycle Sample.before Sample.search_match
               StartPractical as_candidate 20%N s) <> None.
Proof.
  vm_compute. repeat split; try reflexivity; discriminate.
Qed.

(** With 2147483647 days allotted, a complete call made at the very time of
    the first attempt, long before the allotted days have elapsed, does not
    pass either. *)
Lemma deadline_is_strict_counterexample :
  let s := store_with 2147483647 t0 in
  testing_row s 20%N = Some {| Testing.id := 20%N; Testing.vacancy_id := 10%N |}
  /\ vacancy_row s 10%N = Some (vacancy 10%N OPENED 2147483647)
  /\ earliest (attempts_of 1%N 20%N (attempts s)) = Some (attempt 52%N 1%N 20%N 5 t0)
  /\ clock s < t0 + 2147483647 * us_per_day
  /\ raised (lifecycle Sample.before Sample.search_match
               (CompleteTheoretical []) as_candidate 20%N s) = Some OverflowError
  /\ final (lifecycle Sample.before Sample.search_match
              (CompleteTheoretical []) as_candidate 20%N s) = s.
Proof.
  vm_compute. repeat split; try reflexivity; discriminate.
Qed.

(** * The further properties on the sample deployment *)

(** An empty title with a content of three characters: one error. *)
Lemma VacancyCreate_errors_witness :
  [title_empty] =
    (if len EmptyString =? 0 then [title_empty]
     else if len EmptyString >? 255 then [title_too_long] else [])
    ++ (if len "Job"%string =? 0 then [content_empty]
        else if len "Job"%string >? 32000 then [content_too_long] else [])
  /\ (In title_empty [title_empty] <-> len EmptyString = 0)
  /\ (In title_too_long [title_empty] <-> 255 < len EmptyString)
  /\ (In content_empty [title_empty] <-> len "Job"%string = 0)
  /\ (In content_too_long [title_empty] <-> 32000 < len "Job"%string)
  /\ (1 <= List.length [title_empty] <= 2)%nat
  /\ NoDup [title_empty].
Proof.
  exact (VacancyCreate_errors EmptyString "Job"%string DRAFT [title_empty] eq_refl).
Defined.

(** A title and a content that VacancyCreate accepts are accepted as an
    update. *)
Lemma VacancyUpdate_weaker_than_create_witness :
  exists u,
    VacancyUpdate.model_validate (Some "Engineer"%string) (Some "Job"%string) (Some OPENED)
    = inr u.
Proof.
  refine (proj1 (VacancyUpdate_weaker_than_create "Engineer"%string "Job"%string OPENED) _).
  eexists. reflexivity.
Defined.

(** The query of page 3 with page size 100 is within the bounds. *)
Lemma listing_query_bounds_witness :
  exists limit offset,
    query_limit (attempt_repo_get_all 40 80 by_created_at (Some 1%N) None) = Some limit
    /\ query_offset (attempt_repo_get_all 40 80 by_created_at (Some 1%N) None) = Some offset
    /\ 1 <= limit <= 40 /\ 0 <= offset <= 2147483646.
Proof.
  refine (listing_query_bounds Sample.before Sample.search_match as_candidate None 3 100
            by_created_at None None (store t0) _ _).
  left. left. reflexivity.
Defined.

(** The candidate's two attempts, asked for by pages of 100. *)
Lemma listing_size_bound_witness :
  Nat.le (List.length (map AttemptTest.model_validate
                         [attempt 52%N 1%N 20%N 5 t0; attempt 50%N 1%N 20%N 5 (t0 + day 2)]))
    40%nat
  /\ Z.of_nat (List.length (map AttemptTest.model_validate
                              [attempt 52%N 1%N 20%N 5 t0;
                               attempt 50%N 1%N 20%N 5 (t0 + day 2)])) <= 100.
Proof.
  refine (listing_size_bound Sample.before Sample.search_match as_candidate None 1 100
            by_created_at None None (store t0) _ _).
  left. reflexivity.
Defined.

(** Pages 1000000000 and 2000000000 of size 40 are the same page. *)
Lemma clamped_pages_coincide_witness :
  Sample.run (get_test_attempts as_candidate None 1000000000 40 by_created_at) (store t0)
  = Sample.run (get_test_attempts as_candidate None 2000000000 40 by_created_at) (store t0)
  /\ Sample.run (get_user_attempts as_hr 1000000000 40 by_title None None) (store t0)
     = Sample.run (get_user_attempts as_hr 2000000000 40 by_title None None) (store t0).
Proof.
  split.
  - refine (proj1 (clamped_pages_coincide Sample.before Sample.search_match as_candidate
                     None 1000000000 2000000000 40 by_created_at None None (store t0)
                     _ _ _)); lia.
  - refine (proj2 (clamped_pages_coincide Sample.before Sample.search_match as_hr
                     None 1000000000 2000000000 40 by_title None None (store t0)
                     _ _ _)); lia.
Defined.

(** The candidate's attempts by pages of one: page 1 then page 2 are the
    first two rows. *)
Lemma pages_tile_witness :
  map AttemptTest.model_validate [attempt 52%N 1%N 20%N 5 t0]
  ++ map AttemptTest.model_validate [attempt 50%N 1%N 20%N 5 (t0 + day 2)]
  = map AttemptTest.model_validate
      (attempt_get_all Sample.before (store t0) (2 * 1) ((1 - 1) * 1) by_created_at
         (Some 1%N) None).
Proof.
  refine (pages_tile Sample.before Sample.search_match as_candidate None 1 1 by_created_at
            (store t0) _ _ _ _ _ eq_refl eq_refl); lia.
Defined.

(** With 1000000000 days allotted the candidate's calls end with
    OverflowError. *)
Lemma unrepresentable_deadline_overflows_witness :
  lifecycle Sample.before Sample.search_match StartTheoretical as_candidate 20%N
    (store_with 1000000000 (t0 + day 1))
  = failed OverflowError (store_with 1000000000 (t0 + day 1))
      [repo_get 20%N; vacancy_repo_get 10%N; attempt_repo_get_first 1%N 20%N; datetime_now].
Proof.
  refine (unrepresentable_deadline_overflows Sample.before Sample.search_match
            StartTheoretical as_candidate 20%N (store_with 1000000000 (t0 + day 1))
            {| Testing.id := 20%N; Testing.vacancy_id := 10%N |}
            (vacancy 10%N OPENED 1000000000) (attempt 52%N 1%N 20%N 5 t0)
            _ eq_refl eq_refl eq_refl _ _ _).
  - is_allowed.
  - right; left; reflexivity.
  - intros a [<- | [<- | []]]; ground.
  - intros [Habs _]. revert Habs. ground.
Defined.

(** The attempts of user 4 and the questions do not matter to the
    candidate's deadline. *)
Lemma deadline_is_per_user_and_testing_witness :
  raised (lifecycle Sample.before Sample.search_match (CompletePractical []) as_candidate
            20%N (store (t0 + day 6)))
  = raised (lifecycle Sample.before Sample.search_match (CompletePractical []) as_candidate
              20%N (SampleMore.store_of_candidate (t0 + day 6)))
  /\ filter is_check
       (trace (lifecycle Sample.before Sample.search_match (CompletePractical [])
                 as_candidate 20%N (store (t0 + day 6))))
     = filter is_check
         (trace (lifecycle Sample.before Sample.search_match (CompletePractical [])
                   as_candidate 20%N (SampleMore.store_of_candidate (t0 + day 6)))).
Proof.
  exact (deadline_is_per_user_and_testing Sample.before Sample.search_match
           (CompletePractical []) as_candidate 20%N (store (t0 + day 6))
           (SampleMore.store_of_candidate (t0 + day 6)) eq_refl eq_refl eq_refl eq_refl).
Defined.

(** Testing 20 hands out 5 theoretical questions, and a completion counts
    5 answers. *)
Lemma total_answers_counts_started_questions_witness :
  AttemptTest.total_answers
    {| AttemptTest.id := 60%N;
       AttemptTest.user_id := 3%N;
       AttemptTest.testing_id := 20%N;
       AttemptTest.correct_answers := 0;
       AttemptTest.total_answers := 5;
       AttemptTest.created_at := t0;
       AttemptTest.test := Some {| Testing.id := 20%N; Testing.vacancy_id := 10%N |} |}
  = Z.of_nat (List.length
                [theoretical 30%N 20%N; theoretical 31%N 20%N; theoretical 32%N 20%N;
                 theoretical 33%N 20%N; theoretical 34%N 20%N])
  /\ AttemptTest.correct_answers
       {| AttemptTest.id := 60%N;
          AttemptTest.user_id := 3%N;
          AttemptTest.testing_id := 20%N;
          AttemptTest.correct_answers := 0;
          AttemptTest.total_answers := 5;
          AttemptTest.created_at := t0;
          AttemptTest.test := Some {| Testing.id := 20%N; Testing.vacancy_id := 10%N |} |}
     = 0.
Proof.
  exact (proj1 (total_answers_counts_started_questions Sample.before Sample.search_match
                  as_newcomer 20%N (store t0)) [] _ _ eq_refl eq_refl).
Defined.

(** The newcomer completes testing 20 at [t0]: six days later the start is
    refused, five days later it is served. *)
Lemma first_completion_starts_countdown_witness :
  raised (lifecycle Sample.before Sample.search_match StartPractical as_newcomer 20%N
            (set_clock (t0 + day 6)
               (final (lifecycle Sample.before Sample.search_match (CompleteTheoretical [])
                         as_newcomer 20%N (store t0)))))
  = Some (BadRequest TimeExpired)
  /\ raised (lifecycle Sample.before Sample.search_match StartPractical as_newcomer 20%N
               (set_clock (t0 + day 5)
                  (final (lifecycle Sample.before Sample.search_match
                            (CompleteTheoretical []) as_newcomer 20%N (store t0)))))
     = None.
Proof.
  split.
  - refine (proj2 (proj1 (first_completion_starts_countdown Sample.before
                            Sample.search_match (CompleteTheoretical []) StartPractical
                            as_newcomer 20%N (store t0) (vacancy 10%N OPENED 5)
                            {| Testing.id := 20%N; Testing.vacancy_id := 10%N |}
                            (t0 + day 6) eq_refl eq_refl eq_refl _ eq_refl eq_refl _)) _).
    + is_allowed.
    + repeat split; ground.
    + ground.
  - refine (proj2 (first_completion_starts_countdown Sample.before
                     Sample.search_match (CompleteTheoretical []) StartPractical
                     as_newcomer 20%N (store t0) (vacancy 10%N OPENED 5)
                     {| Testing.id := 20%N; Testing.vacancy_id := 10%N |}
                     (t0 + day 5) eq_refl eq_refl eq_refl _ eq_refl eq_refl _) _).
    + is_allowed.
    + repeat split; ground.
    + ground.
Defined.

(** The candidate completes again two days after [t0]: the first attempt is
    still the one of [t0]. *)
Lemma completion_keeps_first_attempts_witness :
  earliest (attempts_of 1%N 20%N
              (attempts (final (lifecycle Sample.before Sample.search_match
                                  (CompletePractical []) as_candidate 20%N
                                  (store (t0 + day 2))))))
  = Some (attempt 52%N 1%N 20%N 5 t0).
Proof.
  refine (proj1 (completion_keeps_first_attempts Sample.before Sample.search_match
                   (CompletePractical []) as_candidate 20%N (store (t0 + day 2)) 1%N 20%N
                   eq_refl eq_refl) (attempt 52%N 1%N 20%N 5 t0) eq_refl _).
  ground.
Defined.

(** Testing 20 is served alone and listed under its vacancy 10. *)
Lemma get_testing_returns_witness :
  Testing.id {| Testing.id := 20%N; Testing.vacancy_id := 10%N |} = 20%N
  /\ result (Sample.run (get_testing as_candidate 20%N) (store t0))
     = inr {| Testing.id := 20%N; Testing.vacancy_id := 10%N |}.
Proof.
  split.
  - exact (proj1 (proj1 (get_testing_returns Sample.before Sample.search_match as_candidate
                           20%N (store t0))
                    {| Testing.id := 20%N; Testing.vacancy_id := 10%N |} eq_refl)).
  - refine (proj2 (get_testing_returns Sample.before Sample.search_match as_candidate
                     20%N (store t0)) _
              {| Testing.id := 20%N; Testing.vacancy_id := 10%N |} (vacancy 10%N OPENED 5)
              eq_refl eq_refl eq_refl).
    is_allowed.
Defined.

(** HR creates a testing in the opened vacancy 10, and cannot in the closed
    vacancy 11 nor in the unknown vacancy 12. *)
Lemma create_testing_outcome_witness :
  SampleMore.run_testing (create_testing as_hr 12%N (TestingCreate.Build)) (store t0)
  = (inl (NotFound (VacancyNotFound 12%N)), store t0, [read (vacancy_repo_get 12%N)])
  /\ SampleMore.run_testing (create_testing as_hr 11%N (TestingCreate.Build)) (store t0)
     = (inl (BadRequest (VacancyNotOpened 11%N)), store t0, [read (vacancy_repo_get 11%N)])
  /\ exists row,
       SampleMore.run_testing (create_testing as_hr 10%N (TestingCreate.Build)) (store t0)
       = (inr row, add_testing (store t0) row,
          [read (vacancy_repo_get 10%N); repo_create (TestingCreate.Build) 10%N])
       /\ Testing.vacancy_id row = 10%N
       /\ testings (add_testing (store t0) row) = testings (store t0) ++ [row]
       /\ attempts (add_testing (store t0) row) = attempts (store t0).
Proof.
  assert (allowed CREATE_TESTING as_hr) as Hh by is_allowed.
  split; [| split].
  - exact (proj1 (create_testing_outcome Sample.before Sample.search_match as_hr 12%N
                    (TestingCreate.Build) (store t0) Hh) eq_refl).
  - refine (proj1 (proj2 (create_testing_outcome Sample.before Sample.search_match as_hr 11%N
                            (TestingCreate.Build) (store t0) Hh))
              (vacancy 11%N CLOSED 5) eq_refl _).
    discriminate.
  - exact (proj2 (proj2 (create_testing_outcome Sample.before Sample.search_match as_hr 10%N
                           (TestingCreate.Build) (store t0) Hh))
             (vacancy 10%N OPENED 5) eq_refl eq_refl).
Defined.

(** The testing HR creates in vacancy 10 is served to the candidate. *)
Lemma created_testing_is_served_witness :
  result (Sample.run (get_testing as_candidate 60%N)
            (snd (fst (SampleMore.run_testing
                         (create_testing as_hr 10%N (TestingCreate.Build)) (store t0)))))
  = inr {| Testing.id := 60%N; Testing.vacancy_id := 10%N |}.
Proof.
  refine (proj1 (created_testing_is_served Sample.before Sample.search_match as_hr
                   as_candidate 10%N (TestingCreate.Build) (store t0)
                   {| Testing.id := 60%N; Testing.vacancy_id := 10%N |}
                   eq_refl eq_refl _)).
  is_allowed.
Defined.

(** HR deletes testing 20 of the opened vacancy, and cannot delete testing
    21 of the closed one. *)
Lemma delete_testing_outcome_witness :
  SampleMore.run_testing (delete_testing as_hr 20%N) (store t0)
  = (inr tt, remove_testing (store t0) 20%N,
     [read (repo_get 20%N); read (vacancy_repo_get 10%N); repo_delete 20%N])
  /\ SampleMore.run_testing (delete_testing as_hr 21%N) (store t0)
     = (inl (BadRequest (VacancyNotOpened 11%N)), store t0,
        [read (repo_get 21%N); read (vacancy_repo_get 11%N)]).
Proof.
  assert (allowed DELETE_TESTING as_hr) as Hh by is_allowed.
  split.
  - exact (proj2 (proj2 (proj2 (delete_testing_outcome Sample.before Sample.search_match
                                  as_hr 20%N (store t0) Hh)
                           {| Testing.id := 20%N; Testing.vacancy_id := 10%N |} eq_refl)
                    (vacancy 10%N OPENED 5) eq_refl) eq_refl).
  - refine (proj1 (proj2 (proj2 (delete_testing_outcome Sample.before Sample.search_match
                                   as_hr 21%N (store t0) Hh)
                            {| Testing.id := 21%N; Testing.vacancy_id := 11%N |} eq_refl)
                     (vacancy 11%N CLOSED 5) eq_refl) _).
    discriminate.
Defined.

(** Once HR has deleted testing 20, the candidate cannot start it. *)
Lemma deleted_testing_is_gone_witness :
  raised (lifecycle Sample.before Sample.search_match StartPractical as_candidate 20%N
            (snd (fst (SampleMore.run_testing (delete_testing as_hr 20%N) (store t0)))))
  = Some (NotFound (TestingNotFound 20%N)).
Proof.
  refine (proj1 (proj2 (deleted_testing_is_gone Sample.before Sample.search_match as_hr
                          20%N (store t0) eq_refl)) StartPractical as_candidate _).
  is_allowed.
Defined.
